(** * E-commerce platform: products, orders and the customer listing

    A shallow embedding of [products.py], [order.py] and the product
    listing of [customer.py].  Python objects live in a store and are
    named by their address, so that the catalog registry
    [Product.products] and an order's cart can hold the same instance.
    Every method is a state transformer over that store which either
    returns a value or raises; a raised exception keeps whatever the
    method had already written, as in Python. *)

From Stdlib Require Import ZArith QArith String Ascii List Lia Bool.
From stdpp Require Import base list strings pretty.

Local Open Scope string_scope.
Local Open Scope Z_scope.

(** ** Python values *)

(** An instance of [int]: a plain integer, or a [bool], which Python makes
    a subclass of [int] (so [isinstance(True, int)] holds and [True]
    counts as 1 in arithmetic). *)
Inductive pyint :=
| PInt (z : Z)
| PBool (b : bool).

Definition int_val (i : pyint) : Z :=
  match i with
  | PInt z => z
  | PBool b => Z.b2z b
  end.

(** A [float] is used by the program for truth tests and for comparisons
    with integers only, never for arithmetic whose result is stored in a
    field modelled here; a finite float is given by its exact value. *)
Inductive pyfloat :=
| FFin (q : Q)
| FInf (negative : bool)
| FNan.

Inductive pynum :=
| NInt (i : pyint)
| NFloat (f : pyfloat).

(** Address of a [Product] instance, address of an [Order] instance. *)
Definition ref := nat.
Definition oref := nat.

Inductive value :=
| VNone
| VNum (n : pynum)
| VStr (s : string)
| VProduct (r : ref).

Definition vint (z : Z) : value := VNum (NInt (PInt z)).
Definition vbool (b : bool) : value := VNum (NInt (PBool b)).
Definition vfloat (q : Q) : value := VNum (NFloat (FFin q)).

Inductive exn :=
| ValueError (msg : string)
| TypeError (msg : string)
| AttributeError (msg : string)
| NoObject.  (* the address names no instance: cannot happen in Python *)

Inductive res (A : Type) :=
| Ok (a : A)
| Err (e : exn).
Arguments Ok {A} a.
Arguments Err {A} e.

(** *** Builtins *)

Definition float_is_zero (f : pyfloat) : bool :=
  match f with
  | FFin q => Qeq_bool q 0
  | _ => false
  end.

(** [bool(v)]: [Product] defines neither [__bool__] nor [__len__]. *)
Definition truthy (v : value) : bool :=
  match v with
  | VNone => false
  | VNum (NInt i) => negb (int_val i =? 0)
  | VNum (NFloat f) => negb (float_is_zero f)
  | VStr s => negb (String.eqb s "")
  | VProduct _ => true
  end.

Definition isinstance_int (v : value) : bool :=
  match v with VNum (NInt _) => true | _ => false end.

Definition isinstance_number (v : value) : bool :=
  match v with VNum _ => true | _ => false end.

Definition isinstance_bool (v : value) : bool :=
  match v with VNum (NInt (PBool _)) => true | _ => false end.

Definition type_name (v : value) : string :=
  match v with
  | VNone => "NoneType"
  | VNum (NInt (PInt _)) => "int"
  | VNum (NInt (PBool _)) => "bool"
  | VNum (NFloat _) => "float"
  | VStr _ => "str"
  | VProduct _ => "Product"
  end.

(** [str(i)] *)
Definition str_int (i : pyint) : string :=
  match i with
  | PInt z => pretty z
  | PBool true => "True"
  | PBool false => "False"
  end.

Definition Qlt_bool (p q : Q) : bool := negb (Qle_bool q p).

(** Order of a number against an integer; [nan] is unordered. *)
Definition num_lt_int (n : pynum) (z : Z) : bool :=
  match n with
  | NInt i => int_val i <? z
  | NFloat (FFin q) => Qlt_bool q (inject_Z z)
  | NFloat (FInf negative) => negative
  | NFloat FNan => false
  end.

Definition num_gt_int (n : pynum) (z : Z) : bool :=
  match n with
  | NInt i => z <? int_val i
  | NFloat (FFin q) => Qlt_bool (inject_Z z) q
  | NFloat (FInf negative) => negb negative
  | NFloat FNan => false
  end.

Definition num_eq_int (n : pynum) (z : Z) : bool :=
  match n with
  | NInt i => int_val i =? z
  | NFloat (FFin q) => Qeq_bool q (inject_Z z)
  | NFloat _ => false
  end.

Definition unsupported (op : string) (v : value) (i : pyint) : exn :=
  TypeError ("'" +:+ op +:+ "' not supported between instances of '"
             +:+ type_name v +:+ "' and '" +:+ type_name (VNum (NInt i)) +:+ "'").

(** [v > i], [v <= i] and [v == i] for an [int] instance [i]. *)
Definition py_gt (v : value) (i : pyint) : res bool :=
  match v with
  | VNum n => Ok (num_gt_int n (int_val i))
  | _ => Err (unsupported ">" v i)
  end.

Definition py_le (v : value) (i : pyint) : res bool :=
  match v with
  | VNum n => Ok (num_lt_int n (int_val i) || num_eq_int n (int_val i))
  | _ => Err (unsupported "<=" v i)
  end.

Definition py_eq (v : value) (i : pyint) : bool :=
  match v with
  | VNum n => num_eq_int n (int_val i)
  | _ => false
  end.

(** *** [str.title] and [str.strip], on ASCII text *)

(** Outside ASCII, [str.title] and [str.strip] follow the Unicode tables
    of the interpreter, which are not modelled: the definitions below are
    the two methods on ASCII text.  What is stated about a stored name or
    category is stated for ASCII arguments ([is_ascii]) and for the states
    reached with them ([ascii_call]). *)
Definition is_ascii (s : string) : bool :=
  forallb (fun c => (nat_of_ascii c <? 128)%nat) (list_ascii_of_string s).

Definition is_upper (c : ascii) : bool :=
  let n := nat_of_ascii c in ((65 <=? n) && (n <=? 90))%nat.

Definition is_lower (c : ascii) : bool :=
  let n := nat_of_ascii c in ((97 <=? n) && (n <=? 122))%nat.

Definition to_upper (c : ascii) : ascii :=
  if is_lower c then ascii_of_nat (nat_of_ascii c - 32) else c.

Definition to_lower (c : ascii) : ascii :=
  if is_upper c then ascii_of_nat (nat_of_ascii c + 32) else c.

(** Whitespace of [str.isspace] below code point 128. *)
Definition is_space (c : ascii) : bool :=
  let n := nat_of_ascii c in
  (((9 <=? n) && (n <=? 13)) || ((28 <=? n) && (n <=? 32)))%nat.

(** A cased character is upper-cased right after an uncased one (or at the
    start) and lower-cased after a cased one. *)
Fixpoint title_from (previous_is_cased : bool) (s : string) : string :=
  match s with
  | EmptyString => EmptyString
  | String c s' =>
      if is_lower c then
        String (if previous_is_cased then c else to_upper c) (title_from true s')
      else if is_upper c then
        String (if previous_is_cased then to_lower c else c) (title_from true s')
      else String c (title_from false s')
  end.

Definition title (s : string) : string := title_from false s.

Fixpoint lstrip (s : string) : string :=
  match s with
  | EmptyString => EmptyString
  | String c s' => if is_space c then lstrip s' else s
  end.

Fixpoint rstrip (s : string) : string :=
  match s with
  | EmptyString => EmptyString
  | String c s' =>
      match rstrip s' with
      | EmptyString => if is_space c then EmptyString else String c EmptyString
      | t => String c t
      end
  end.

Definition strip (s : string) : string := rstrip (lstrip s).

(** [v.title()]: only [str] has the method. *)
Definition py_title (v : value) : res string :=
  match v with
  | VStr s => Ok (title s)
  | _ => Err (AttributeError ("'" +:+ type_name v +:+ "' object has no attribute 'title'"))
  end.

(** ** Instances and the process-wide state *)

(** A [Product] instance with its attributes.  [__init__] assigns
    [_incart] (through the [in_cart] setter); [_in_cart], the attribute
    the [in_cart] getter reads, is present only if something assigned it. *)
Record ProductObj := mkProduct {
  _name : string;
  _quantity : pyint;
  _price : pynum;
  _product_id : string;
  _parent_id : string;
  _category : string;
  _incart : bool;
  _in_cart : option bool
}.

(** An [Order] instance.  The cached [_total] is display-only and is left
    out together with the formatting of prices. *)
Record OrderObj := mkOrder {
  _products : list ref;
  _id : Z;
  _created_date : string;
  _checkout_date : option string;
  _checkout_status : bool
}.

(** What [print] wrote. *)
Inductive output :=
| Line (s : string)
| CheckoutReceipt (order_number : Z).  (* "Check out successful. ..." with the price *)

Record World := mkWorld {
  heap : list ProductObj;        (* Product instances, by address *)
  products : list ref;           (* Product.products *)
  _id_counter : option Z;        (* Product._id_counter, absent at first *)
  oheap : list OrderObj;         (* Order instances, by address *)
  orders : list oref;            (* Order.orders *)
  _order_id : option Z;          (* Order._order_id, absent at first *)
  stdout : list output
}.

Definition init_world : World :=
  mkWorld [] [] None [] [] None [].

Definition with_heap (h : list ProductObj) (w : World) : World :=
  mkWorld h (products w) (_id_counter w) (oheap w) (orders w) (_order_id w) (stdout w).
Definition with_products (l : list ref) (w : World) : World :=
  mkWorld (heap w) l (_id_counter w) (oheap w) (orders w) (_order_id w) (stdout w).
Definition with_id_counter (c : option Z) (w : World) : World :=
  mkWorld (heap w) (products w) c (oheap w) (orders w) (_order_id w) (stdout w).
Definition with_oheap (h : list OrderObj) (w : World) : World :=
  mkWorld (heap w) (products w) (_id_counter w) h (orders w) (_order_id w) (stdout w).
Definition with_orders (l : list oref) (w : World) : World :=
  mkWorld (heap w) (products w) (_id_counter w) (oheap w) l (_order_id w) (stdout w).
Definition with_order_id (c : option Z) (w : World) : World :=
  mkWorld (heap w) (products w) (_id_counter w) (oheap w) (orders w) c (stdout w).
Definition with_stdout (o : list output) (w : World) : World :=
  mkWorld (heap w) (products w) (_id_counter w) (oheap w) (orders w) (_order_id w) o.

Definition set_quantity (q : pyint) (p : ProductObj) : ProductObj :=
  mkProduct (_name p) q (_price p) (_product_id p) (_parent_id p) (_category p)
            (_incart p) (_in_cart p).
Definition set_name (n : string) (p : ProductObj) : ProductObj :=
  mkProduct n (_quantity p) (_price p) (_product_id p) (_parent_id p) (_category p)
            (_incart p) (_in_cart p).
Definition set_category (c : string) (p : ProductObj) : ProductObj :=
  mkProduct (_name p) (_quantity p) (_price p) (_product_id p) (_parent_id p) c
            (_incart p) (_in_cart p).
Definition set_price (x : pynum) (p : ProductObj) : ProductObj :=
  mkProduct (_name p) (_quantity p) x (_product_id p) (_parent_id p) (_category p)
            (_incart p) (_in_cart p).
Definition set_parent_id (i : string) (p : ProductObj) : ProductObj :=
  mkProduct (_name p) (_quantity p) (_price p) (_product_id p) i (_category p)
            (_incart p) (_in_cart p).
Definition set_incart (b : bool) (p : ProductObj) : ProductObj :=
  mkProduct (_name p) (_quantity p) (_price p) (_product_id p) (_parent_id p)
            (_category p) b (_in_cart p).

Definition set_products (l : list ref) (o : OrderObj) : OrderObj :=
  mkOrder l (_id o) (_created_date o) (_checkout_date o) (_checkout_status o).
Definition set_checkout (d : string) (o : OrderObj) : OrderObj :=
  mkOrder (_products o) (_id o) (_created_date o) (Some d) true.

(** ** Computations that change the state and may raise *)

Definition M (A : Type) : Type := World -> res A * World.

Definition ret {A} (a : A) : M A := fun w => (Ok a, w).
Definition raise {A} (e : exn) : M A := fun w => (Err e, w).

Definition bind {A B} (m : M A) (k : A -> M B) : M B :=
  fun w =>
    match m w with
    | (Ok a, w') => k a w'
    | (Err e, w') => (Err e, w')
    end.

#[global] Instance M_ret : MRet M := @ret.
#[global] Instance M_bind : MBind M := fun A B k m => bind m k.

Definition lift {A} (r : res A) : M A := fun w => (r, w).

(** [try: m  except ValueError as e: handler(e)]; other exceptions pass. *)
Definition try_except_ValueError {A} (m : M A) (handler : string -> M A) : M A :=
  fun w =>
    match m w with
    | (Err (ValueError msg), w') => handler msg w'
    | r => r
    end.

Definition print (o : output) : M unit :=
  fun w => (Ok tt, with_stdout (stdout w ++ [o]) w).

Definition get_product (r : ref) : M ProductObj :=
  fun w => match heap w !! r with
           | Some p => (Ok p, w)
           | None => (Err NoObject, w)
           end.

Definition update_product (r : ref) (f : ProductObj -> ProductObj) : M unit :=
  fun w => match heap w !! r with
           | Some p => (Ok tt, with_heap (<[r := f p]> (heap w)) w)
           | None => (Err NoObject, w)
           end.

Definition get_order (o : oref) : M OrderObj :=
  fun w => match oheap w !! o with
           | Some x => (Ok x, w)
           | None => (Err NoObject, w)
           end.

Definition update_order (o : oref) (f : OrderObj -> OrderObj) : M unit :=
  fun w => match oheap w !! o with
           | Some x => (Ok tt, with_oheap (<[o := f x]> (oheap w)) w)
           | None => (Err NoObject, w)
           end.

Definition gets {A} (f : World -> A) : M A := fun w => (Ok (f w), w).

(** [x in l] and [l.index(x)] compare each element [e] of the list with
    [e is x or e == x], from the front. *)
Fixpoint list_index {A} (same : A -> bool) (l : list A) : option nat :=
  match l with
  | [] => None
  | e :: l' => if same e then Some 0%nat else S <$> list_index same l'
  end.

Definition list_contains {A} (same : A -> bool) (l : list A) : bool :=
  existsb same l.

(** ** products.py *)

Module Product.

(** The property setters: the check each one makes and the value it
    stores. *)
Definition name_setter (name : value) : res string :=
  if negb (truthy name) then Err (ValueError "Missing product name")
  else match py_title name with
       | Ok s => Ok (strip s)
       | Err e => Err e
       end.

Definition category_setter (category : value) : res string :=
  if negb (truthy category) then Err (ValueError "Missing product category")
  else match py_title category with
       | Ok s => Ok (strip s)
       | Err e => Err e
       end.

Definition quantity_setter (quantity : value) : res pyint :=
  match quantity with
  | VNum (NInt i) =>
      if negb (truthy quantity)
      then Err (ValueError "Missing or invalid product quantity")
      else Ok i
  | _ => Err (ValueError "Missing or invalid product quantity")
  end.

Definition price_setter (price : value) : res pynum :=
  match price with
  | VNum n =>
      if negb (truthy price)
      then Err (ValueError "Missing or invalid product price")
      else Ok n
  | _ => Err (ValueError "Missing or invalid product price")
  end.

(** Stores under [_incart]. *)
Definition in_cart_setter (v : value) : res bool :=
  match v with
  | VNum (NInt (PBool b)) => Ok b
  | _ => Err (ValueError "Missing or invalid product cart status")
  end.

(** The [in_cart] getter: reads [_in_cart]. *)
Definition in_cart (p : ProductObj) : res bool :=
  match _in_cart p with
  | Some b => Ok b
  | None => Err (AttributeError "'Product' object has no attribute '_in_cart'")
  end.

Definition set_in_cart (self : ref) (v : value) : M unit :=
  b ← lift (in_cart_setter v);
  update_product self (set_incart b).

Definition set_quantity_checked (self : ref) (v : value) : M unit :=
  q ← lift (quantity_setter v);
  update_product self (set_quantity q).

Definition set_name_checked (self : ref) (v : value) : M unit :=
  n ← lift (name_setter v);
  update_product self (set_name n).

Definition set_category_checked (self : ref) (v : value) : M unit :=
  c ← lift (category_setter v);
  update_product self (set_category c).

Definition set_price_checked (self : ref) (v : value) : M unit :=
  x ← lift (price_setter v);
  update_product self (set_price x).

Definition generate_id : M string :=
  fun w =>
    let c := match _id_counter w with
             | None => 100000
             | Some c => c + 1
             end in
    (Ok (pretty c), with_id_counter (Some c) w).

(** The instance gets the next free address and is appended to
    [Product.products]. *)
Definition register (p : ProductObj) : M ref :=
  fun w =>
    let self := length (heap w) in
    (Ok self, with_products (products w ++ [self]) (with_heap (heap w ++ [p]) w)).

(** [Product(name, category, price, quantity)].  The instance becomes
    visible only through the final [append]; when a setter raises it is
    dropped, but an identifier drawn before that stays consumed. *)
Definition __init__ (name category price quantity : value) : M ref :=
  titled ← lift (py_title name);
  n ← lift (name_setter (VStr titled));
  q ← lift (quantity_setter quantity);
  p ← lift (price_setter price);
  id ← generate_id;
  c ← lift (category_setter category);
  f ← lift (in_cart_setter (vbool false));
  register (mkProduct n q p id id c f None).

Definition __eq__ (a b : ProductObj) : bool :=
  String.eqb (_product_id a) (_product_id b)
  || String.eqb (_parent_id a) (_parent_id b).

Definition __ne__ (a b : ProductObj) : bool :=
  negb (String.eqb (_parent_id a) (_parent_id b)).

(** [e is x or e == x] on two instances. *)
Definition same (h : list ProductObj) (x e : ref) : bool :=
  (e =? x)%nat
  || match h !! e, h !! x with
     | Some a, Some b => __eq__ a b
     | _, _ => false
     end.

Definition validate_product {A} (function : ref -> M A) (self : ref) : M A :=
  w ← gets id;
  if negb (list_contains (same (heap w) self) (products w))
  then raise (ValueError "Unable to update product inventory. Product does not exist")
  else function self.

Definition pop_product (idx : nat) : M unit :=
  fun w => (Ok tt, with_products (delete idx (products w)) w).

Definition delete_product (prod : ref) : M unit :=
  w ← gets id;
  if negb (list_contains (same (heap w) prod) (products w))
  then raise (ValueError "Product does not exist")
  else match list_index (same (heap w) prod) (products w) with
       | Some idx => pop_product idx
       | None => raise (ValueError "list.index(x): x not in list")
       end.

Definition __add__ (self : ref) (other : value) : M ref :=
  match other with
  | VProduct o =>
      p ← get_product self;
      po ← get_product o;
      if __ne__ p po
      then raise (TypeError "Cannot add Products of different names, categories, or price")
      else
        set_quantity_checked self
          (vint (int_val (_quantity p) + int_val (_quantity po)));;
        mret self
  | VNum (NInt i) =>
      p ← get_product self;
      update_product self (set_quantity (PInt (int_val (_quantity p) + int_val i)));;
      mret self
  | _ => raise (TypeError "Cannot add items of different types")
  end.

(** Subtracting an amount [n] held by [self]: the three-way test shared by
    the [int] and the [Product] branch of [__sub__]. *)
Definition subtract (self : ref) (n : Z) : M (option ref) :=
  p ← get_product self;
  if int_val (_quantity p) <? n
  then raise (ValueError "Cannot subtract more than the available quantity")
  else if n =? int_val (_quantity p)
  then delete_product self;; mret None
  else set_quantity_checked self (vint (int_val (_quantity p) - n));;
       mret (Some self).

Definition __sub__ (self : ref) (other : value) : M (option ref) :=
  match other with
  | VProduct o =>
      p ← get_product self;
      po ← get_product o;
      if __ne__ p po
      then raise (TypeError "Cannot add Products of different types")
      else subtract self (int_val (_quantity po))
  | VNum (NInt i) => subtract self (int_val i)
  | _ => raise (TypeError "Cannot subtract items of different types")
  end.

(** [if not isinstance(value, int) and value <= 0]: the comparison is
    evaluated only for a non-[int]. *)
Definition add_inventory (self : ref) (value : value) : M ref :=
  validate_product (fun self =>
    invalid ← (if negb (isinstance_int value)
               then lift (py_le value (PInt 0))
               else mret false);
    if (invalid : bool) then raise (ValueError "Invalid quantity")
    else __add__ self value) self.

(** [if not isinstance(value, int) or value <= 0 or value > self.quantity] *)
Definition remove_inventory (self : ref) (value : value) : M (option ref) :=
  validate_product (fun self =>
    p ← get_product self;
    invalid ← (if negb (isinstance_int value) then mret true
               else le ← lift (py_le value (PInt 0));
                    if (le : bool) then mret true
                    else lift (py_gt value (_quantity p)));
    if (invalid : bool) then raise (ValueError "Invalid quantity")
    else __sub__ self value) self.

Definition new (self : ref) (qty : value) (update_original : bool) : M (option ref) :=
  try_except_ValueError
    (p ← get_product self;
     invalid ← (if negb (truthy qty) then mret true
                else lift (py_gt qty (_quantity p)));
     if (invalid : bool) then raise (ValueError "Invalid quantity")
     else
       n ← __init__ (VStr (_name p)) (VStr (_category p)) (VNum (_price p)) qty;
       update_product n (set_parent_id (_product_id p));;
       (if update_original then remove_inventory self qty;; mret tt else mret tt);;
       mret (Some n))
    (fun e => print (Line ("New Product Error: " +:+ e));; mret None).

Definition list_product : M (list ref) := gets products.

End Product.

(** ** order.py *)

(** An argument of [Order(...)]: a [(Product, int)] tuple, a [Product], or
    anything else. *)
Inductive item :=
| ItemPair (p : ref) (qty : pyint)
| ItemProduct (p : ref)
| ItemOther.

Module Order.

Definition order_id : M Z :=
  fun w =>
    let c := match _order_id w with
             | None => 10000
             | Some c => c + 1
             end in
    (Ok c, with_order_id (Some c) w).

(** [Order] defines no [__eq__]: membership in [Order.orders] is by
    identity. *)
Definition order_validation {A} (function : oref -> M A) (self : oref) : M A :=
  o ← get_order self;
  if _checkout_status o
  then raise (ValueError "Unable to edit order, you have already checked out!")
  else
    l ← gets orders;
    if negb (list_contains (Nat.eqb self) l)
    then raise (ValueError "Order does not exist")
    else function self.

Definition append_product (self : oref) (prod : ref) : M unit :=
  o ← get_order self;
  update_order self (set_products (_products o ++ [prod])).

Definition add_product (self : oref) (product : ref) (qty : value) : M (option oref) :=
  order_validation (fun self =>
    p ← get_product product;
    exceeds ← lift (py_gt qty (_quantity p));
    if (exceeds : bool)
    then raise (ValueError ("Only " +:+ str_int (_quantity p) +:+ " items available"))
    else
      try_except_ValueError
        (prod ← Product.new product qty true;
         match prod with
         | None => raise (ValueError "Unable to add product")
         | Some n =>
             Product.set_in_cart n (vbool true);;
             append_product self n;;
             mret (Some self)
         end)
        (fun e => print (Line ("Product Addition Error: " +:+ e));; mret None)) self.

Definition remove_product (self : oref) (product : ref) : M oref :=
  order_validation (fun self =>
    o ← get_order self;
    h ← gets heap;
    if negb (list_contains (Product.same h product) (_products o))
    then raise (ValueError "Product not in order cart")
    else match list_index (Product.same h product) (_products o) with
         | Some idx =>
             Product.set_in_cart product (vbool false);;
             update_order self (set_products (delete idx (_products o)));;
             mret self
         | None => raise (ValueError "list.index(x): x not in list")
         end) self.

(** [next((p for p in Product.products
          if p.parent_id == product.parent_id and not p.in_cart), None)]:
    the flag of a unit is read only when its parent id matches. *)
Fixpoint first_unreserved (h : list ProductObj) (parent : string) (l : list ref)
  : res (option ref) :=
  match l with
  | [] => Ok None
  | r :: l' =>
      match h !! r with
      | None => Err NoObject
      | Some p =>
          if String.eqb (_parent_id p) parent then
            match Product.in_cart p with
            | Err e => Err e
            | Ok flag => if negb flag then Ok (Some r) else first_unreserved h parent l'
            end
          else first_unreserved h parent l'
      end
  end.

(** Past the validity test [new_qty] is an [int]; the last branch of the
    [match] stands for the values the test has already refused. *)
Definition update_product_quantity (self : oref) (product : ref) (new_qty : value)
  : M oref :=
  order_validation (fun self =>
    o ← get_order self;
    h ← gets heap;
    if negb (list_contains (Product.same h product) (_products o))
    then raise (ValueError "Product not in order cart")
    else
      p ← get_product product;
      invalid ← (if negb (truthy new_qty) then mret true
                 else le ← lift (py_le new_qty (PInt 0));
                      if (le : bool) then mret true
                      else if negb (isinstance_int new_qty) then mret true
                      else mret (py_eq new_qty (_quantity p)));
      match (invalid : bool), new_qty with
      | false, VNum (NInt n) =>
          w ← gets id;
          found ← lift (first_unreserved (heap w) (_parent_id p) (products w));
          match found with
          | None =>
              raise (ValueError ("Original product '" +:+ _name p
                     +:+ "' not found in global inventory. Cannot validate stock."))
          | Some global_prod =>
              g ← get_product global_prod;
              let stock_adjustment_amount :=
                vint (Z.abs (int_val (_quantity p) - int_val n)) in
              if int_val (_quantity g) <? int_val n
              then raise (ValueError ("Cannot set quantity to " +:+ str_int n
                     +:+ " for '" +:+ _name p +:+ "'.Only "
                     +:+ str_int (_quantity g) +:+ " items are available"))
              else if int_val (_quantity p) <? int_val n
              then Product.set_quantity_checked product new_qty;;
                   Product.remove_inventory global_prod stock_adjustment_amount;;
                   mret self
              else if int_val n <? int_val (_quantity p)
              then Product.set_quantity_checked product new_qty;;
                   Product.add_inventory global_prod stock_adjustment_amount;;
                   mret self
              else mret self
          end
      | _, _ => raise (ValueError "Enter a valid quantity")
      end) self.

(** [self.products = []] goes through the [products] setter, whose type
    checks an empty list passes. *)
Definition clear_products (self : oref) : M oref :=
  order_validation (fun self =>
    update_order self (set_products []);;
    mret self) self.

Definition pop_order (idx : nat) : M unit :=
  fun w => (Ok tt, with_orders (base.delete idx (orders w)) w).

Definition delete (self : oref) : M unit :=
  order_validation (fun self =>
    l ← gets orders;
    match list_index (Nat.eqb self) l with
    | Some idx => pop_order idx
    | None => raise (ValueError "list.index(x): x not in list")
    end) self.

(** The [total_price] property, as far as control goes: it raises for an
    order that is not in [Order.orders]; summing and formatting the total
    is left out. *)
Definition total_price (self : oref) : M unit :=
  l ← gets orders;
  if negb (list_contains (Nat.eqb self) l)
  then raise (ValueError "Order does not exist")
  else mret tt.

Definition str_date (d : option string) : string :=
  match d with
  | Some s => s
  | None => "None"
  end.

(** [today] stands for [str(date.today())]. *)
Definition checkout (today : string) (self : oref) : M unit :=
  o ← get_order self;
  if _checkout_status o
  then raise (ValueError ("Already checked out. Checkout date: "
                          +:+ str_date (_checkout_date o)))
  else if (length (_products o) =? 0)%nat
  then print (Line "Unable to checkout. No product in cart")
  else
    update_order self (set_checkout today);;
    total_price self;;
    print (CheckoutReceipt (_id o)).

Definition register (o : OrderObj) : M oref :=
  fun w =>
    let self := length (oheap w) in
    (Ok self, with_orders (orders w ++ [self]) (with_oheap (oheap w ++ [o]) w)).

Fixpoint add_items (self : oref) (items : list item) : M unit :=
  match items with
  | [] => mret tt
  | ItemPair p qty :: rest =>
      add_product self p (VNum (NInt qty));; add_items self rest
  | ItemProduct p :: rest =>
      add_product self p (vint 1);; add_items self rest
  | ItemOther :: _ =>
      raise (TypeError "Initial products must be Product objects or (Product, quantity) tuples.")
  end.

(** [Order(...)] with its initial products: the order is in
    [Order.orders] before they are added. *)
Definition __init__ (today : string) (items : list item) : M oref :=
  i ← order_id;
  self ← register (mkOrder [] i today None false);
  add_items self items;;
  mret self.

End Order.

(** ** customer.py: the listing of available products *)

Module Customer.

(** [[prod for prod in Product.products if not prod.in_cart]] *)
Fixpoint available (h : list ProductObj) (l : list ref) : res (list ref) :=
  match l with
  | [] => Ok []
  | r :: l' =>
      match h !! r with
      | None => Err NoObject
      | Some p =>
          match Product.in_cart p with
          | Err e => Err e
          | Ok flag =>
              match available h l' with
              | Err e => Err e
              | Ok rest => Ok (if negb flag then r :: rest else rest)
              end
          end
      end
  end.

(** The rows of the table, by the instance each row holds. *)
Definition product_table : M (list ref) :=
  w ← gets id;
  lift (available (heap w) (products w)).

End Customer.

(** ** Calls into the two classes *)

(** One call of a client: a constructor, a method, a class method, or an
    assignment to a property that has a setter. *)
Inductive call :=
| NewProduct (name category price quantity : value)
| AssignName (self : ref) (v : value)
| AssignCategory (self : ref) (v : value)
| AssignPrice (self : ref) (v : value)
| AssignQuantity (self : ref) (v : value)
| AssignInCart (self : ref) (v : value)
| CallNew (self : ref) (qty : value) (update_original : bool)
| CallAddInventory (self : ref) (v : value)
| CallRemoveInventory (self : ref) (v : value)
| CallAdd (self : ref) (other : value)
| CallSub (self : ref) (other : value)
| CallDeleteProduct (prod : ref)
| NewOrder (today : string) (items : list item)
| CallAddProduct (self : oref) (product : ref) (qty : value)
| CallRemoveProduct (self : oref) (product : ref)
| CallUpdateProductQuantity (self : oref) (product : ref) (new_qty : value)
| CallClearProducts (self : oref)
| CallDelete (self : oref)
| CallCheckout (today : string) (self : oref)
| CallProductTable
| CallGenerateId
| CallOrderId.

Definition discard {A} (m : M A) : M unit := m;; mret tt.

Definition exec (c : call) : M unit :=
  match c with
  | NewProduct n c p q => discard (Product.__init__ n c p q)
  | AssignName r v => Product.set_name_checked r v
  | AssignCategory r v => Product.set_category_checked r v
  | AssignPrice r v => Product.set_price_checked r v
  | AssignQuantity r v => Product.set_quantity_checked r v
  | AssignInCart r v => Product.set_in_cart r v
  | CallNew r q u => discard (Product.new r q u)
  | CallAddInventory r v => discard (Product.add_inventory r v)
  | CallRemoveInventory r v => discard (Product.remove_inventory r v)
  | CallAdd r v => discard (Product.__add__ r v)
  | CallSub r v => discard (Product.__sub__ r v)
  | CallDeleteProduct r => Product.delete_product r
  | NewOrder today items => discard (Order.__init__ today items)
  | CallAddProduct o r q => discard (Order.add_product o r q)
  | CallRemoveProduct o r => discard (Order.remove_product o r)
  | CallUpdateProductQuantity o r q => discard (Order.update_product_quantity o r q)
  | CallClearProducts o => discard (Order.clear_products o)
  | CallDelete o => Order.delete o
  | CallCheckout today o => Order.checkout today o
  | CallProductTable => discard Customer.product_table
  | CallGenerateId => discard Product.generate_id
  | CallOrderId => discard Order.order_id
  end.

(** The state after a call, whether it returned or raised. *)
Definition after (c : call) (w : World) : World := (exec c w).2.

(** The states a client reaches from a fresh process with calls that all
    satisfy [allowed]. *)
Inductive reachable (allowed : call -> Prop) : World -> Prop :=
| reachable_init : reachable allowed init_world
| reachable_step w c :
    reachable allowed w -> allowed c -> reachable allowed (after c w).

Definition any_call (c : call) : Prop := True.

(** The calls that pass ASCII text where a name or a category is expected. *)
Definition ascii_value (v : value) : bool :=
  match v with
  | VStr s => is_ascii s
  | _ => true
  end.

Definition ascii_call (c : call) : Prop :=
  match c with
  | NewProduct name category _ _ =>
      ascii_value name = true /\ ascii_value category = true
  | AssignName _ v | AssignCategory _ v => ascii_value v = true
  | _ => True
  end.

(** A value that is not a negative [int]. *)
Definition not_negative (v : value) : Prop :=
  forall i, v = VNum (NInt i) -> 0 <= int_val i.

(** The calls whose quantity arguments all satisfy [ok]. *)
Definition item_quantity (ok : value -> Prop) (it : item) : Prop :=
  match it with
  | ItemPair _ qty => ok (VNum (NInt qty))
  | _ => True
  end.

Definition quantities_satisfy (ok : value -> Prop) (c : call) : Prop :=
  match c with
  | NewProduct _ _ _ q => ok q
  | AssignQuantity _ v => ok v
  | CallNew _ q _ => ok q
  | CallAddInventory _ v => ok v
  | CallAdd _ v => ok v
  | NewOrder _ items => Forall (item_quantity ok) items
  | CallAddProduct _ _ q => ok q
  | _ => True
  end.

(** The calls that pass no negative [int] where a quantity is expected. *)
Definition no_negative_quantity : call -> Prop := quantities_satisfy not_negative.

(** ** Invariants *)

(** A string the [name] and [category] setters store as it is. *)
Definition normal (s : string) : Prop := strip (title s) = s.

(** The attributes as the setters leave them. *)
Definition attributes_checked (p : ProductObj) : Prop :=
  normal (_name p) /\ normal (_category p) /\ truthy (VNum (_price p)) = true.

(** Every unit of the registry is an instance, no instance has the
    attribute [_in_cart], every identifier was issued by the counter, and
    every attribute went through its setter. *)
Record consistent (w : World) : Prop := {
  registry_valid : forall r, r ∈ products w -> is_Some (heap w !! r);
  flag_absent : forall r p, heap w !! r = Some p -> _in_cart p = None;
  ids_issued : forall r p, heap w !! r = Some p ->
    exists k c, _id_counter w = Some c /\ k <= c /\ _product_id p = pretty k;
  attributes_set : forall r p, heap w !! r = Some p -> attributes_checked p
}.

Definition quantities_positive (w : World) : Prop :=
  forall r p, heap w !! r = Some p -> 0 < int_val (_quantity p).

(** The invariant of the data model: every unit in [Product.products] has
    a strictly positive quantity. *)
Definition registry_positive (w : World) : Prop :=
  forall r, r ∈ products w ->
    exists p, heap w !! r = Some p /\ 0 < int_val (_quantity p).

(** [m] maintains [I], however it ends. *)
Definition keeps (I : World -> Prop) {A} (m : M A) : Prop :=
  forall w, I w -> I (m w).2.

(** What an invariant must survive: the writes of the two classes that do
    not decompose further, given that quantity arguments satisfy [ok]. *)
Class Stable (I : World -> Prop) (ok : value -> Prop) : Prop := {
  ok_not_negative : forall v, not_negative v -> ok v;
  stable_print : forall o, keeps I (print o);
  stable_update_order : forall o f, keeps I (update_order o f);
  stable_order_id : keeps I Order.order_id;
  stable_order_register : forall o, keeps I (Order.register o);
  stable_pop_order : forall idx, keeps I (Order.pop_order idx);
  stable_pop_product : forall idx, keeps I (Product.pop_product idx);
  stable_set_parent_id : forall r i, keeps I (update_product r (set_parent_id i));
  stable_set_in_cart : forall r v, keeps I (Product.set_in_cart r v);
  stable_set_name : forall r v, keeps I (Product.set_name_checked r v);
  stable_set_category : forall r v, keeps I (Product.set_category_checked r v);
  stable_set_price : forall r v, keeps I (Product.set_price_checked r v);
  stable_set_quantity : forall r v, ok v -> keeps I (Product.set_quantity_checked r v);
  stable_init : forall n c p q, ok q -> keeps I (Product.__init__ n c p q);
  stable_add : forall r v, ok v -> keeps I (Product.__add__ r v);
  stable_subtract : forall r n, keeps I (Product.subtract r n);
  stable_generate_id : keeps I Product.generate_id
}.

(** What the [price] and the [quantity] setter let through: a number,
    respectively an [int], that is not zero. *)
Definition accepted_price (v : value) : bool := isinstance_number v && truthy v.
Definition accepted_quantity (v : value) : bool := isinstance_int v && truthy v.

(** A number strictly greater than 0, a strictly positive integer. *)
Definition positive_number (v : value) : bool :=
  match v with
  | VNum n => num_gt_int n 0
  | _ => false
  end.
Definition positive_integer (v : value) : bool :=
  match v with
  | VNum (NInt i) => 0 <? int_val i
  | _ => false
  end.

(** The value the counter takes at the next construction and the
    identifier drawn from it. *)
Definition next_counter (w : World) : Z :=
  match _id_counter w with
  | None => 100000
  | Some c => c + 1
  end.
Definition next_id (w : World) : string := pretty (next_counter w).

(** What reading [in_cart] raises when the instance has no [_in_cart]. *)
Definition no_in_cart_attribute : exn :=
  AttributeError "'Product' object has no attribute '_in_cart'".

(** Some unit of [l] has the parent id [parent]. *)
Definition has_lineage (h : list ProductObj) (parent : string) (l : list ref) : bool :=
  existsb (fun r => match h !! r with
                    | Some p => String.eqb (_parent_id p) parent
                    | None => false
                    end) l.

(** The error every guarded [Order] method raises after checkout. *)
Definition already_checked_out {A} : res A :=
  Err (ValueError "Unable to edit order, you have already checked out!").

(** ** Scenarios *)

Definition today : string := "2026-11-03".

(** [Product("Mouse", "Electronics", 30.00, 50)] in a fresh process. *)
Definition mouse_world : World :=
  after (NewProduct (VStr "Mouse") (VStr "Electronics") (vfloat 30) (vint 50)) init_world.

(** [Product("Mouse", "Electronics", 30.00, -5)] in a fresh process. *)
Definition negative_mouse_world : World :=
  after (NewProduct (VStr "Mouse") (VStr "Electronics") (vfloat 30) (vint (-5))) init_world.

(** [Product("Mouse", "Electronics", 30.00, 50)] in a fresh process, then
    [Order()]. *)
Definition open_order_world : World :=
  after (NewOrder today []) mouse_world.

(** ... then [Order()] and [add_product(mouse, 5)]: the mouse is instance
    0 with 45 left, the cart line is instance 1 with 5. *)
Definition cart_world : World :=
  after (CallAddProduct 0%nat 0%nat (vint 5)) (after (NewOrder today []) mouse_world).

(** ... then [checkout()]. *)
Definition checked_out_world : World :=
  after (CallCheckout today 0%nat) cart_world.

(** ** The rest of order.py and customer.py *)

(** The [products] setter of an order, given a list: each element has to be
    a [Product]; the setter is not wrapped by [order_validation]. *)
Definition order_products_setter (self : oref) (products_list : list value) : M unit :=
  if forallb (fun v => match v with VProduct _ => true | _ => false end) products_list
  then update_order self
         (set_products (omap (fun v => match v with VProduct r => Some r | _ => None end)
                             products_list))
  else raise (TypeError "Invalid product type").

(** A [Customer] instance: its current order and its name. *)
Module CustomerObj.
Record t := mk { _order : oref; _name : string }.
End CustomerObj.

Module CustomerCart.

(** The [name] setter of a customer: title case, no stripping. *)
Definition name_setter (v : value) : res string :=
  if negb (truthy v) then Err (ValueError "Missing name")
  else py_title v.

(** [Customer(name)]: the order is created before the name is checked. *)
Definition __init__ (today : string) (name : value) : M CustomerObj.t :=
  o ← Order.__init__ today [];
  n ← lift (name_setter name);
  mret (CustomerObj.mk o n).

(** [add_to_cart]: the confirmation is printed whatever [add_product]
    returned; [quantity] is the [int] read from the prompt. *)
Definition add_to_cart (self : CustomerObj.t) (prod : ref) (quantity : pyint) : M unit :=
  Order.add_product (CustomerObj._order self) prod (VNum (NInt quantity));;
  p ← get_product prod;
  print (Line (str_int quantity +:+ " x " +:+ _name p +:+ " added to cart successfully!")).

End CustomerCart.

(** ** Sequences of calls and further invariants *)

Definition after_all (cs : list call) (w : World) : World :=
  foldl (fun w c => after c w) w cs.

(** No two instances bear the same product id. *)
Definition ids_distinct (w : World) : Prop :=
  forall r1 r2 p1 p2,
    heap w !! r1 = Some p1 -> heap w !! r2 = Some p2 ->
    _product_id p1 = _product_id p2 -> r1 = r2.

Definition is_open (self : oref) (w : World) : Prop :=
  exists x, oheap w !! self = Some x /\ _checkout_status x = false.

(** [I] inside a guarded method of the order [self]: the order is open. *)
Definition while_open (I : World -> Prop) (self : oref) (w : World) : Prop :=
  I w /\ is_open self w.

(** [Order.orders] lists instances, each at most once. *)
Definition orders_listed_once (w : World) : Prop :=
  NoDup (orders w) /\ forall o, o ∈ orders w -> is_Some (oheap w !! o).

(** An order has a checkout date exactly when its checkout flag is set. *)
Definition dates_match_flags (w : World) : Prop :=
  forall o x, oheap w !! o = Some x ->
    (_checkout_status x = true <-> is_Some (_checkout_date x)).


(** A checked-out order has something in its cart. *)
Definition checked_out_carts_filled (w : World) : Prop :=
  forall o x, oheap w !! o = Some x -> _checkout_status x = true -> _products x <> [].

(** The state of the orders: what no method of [Product] writes. *)
Definition orders_state (w : World) : list OrderObj * list oref * option Z :=
  (oheap w, orders w, _order_id w).

(** The calls that go to [Product] or to the listing of the products. *)
Definition on_products (c : call) : bool :=
  match c with
  | NewProduct _ _ _ _ | AssignName _ _ | AssignCategory _ _ | AssignPrice _ _
  | AssignQuantity _ _ | AssignInCart _ _ | CallNew _ _ _ | CallAddInventory _ _
  | CallRemoveInventory _ _ | CallAdd _ _ | CallSub _ _ | CallDeleteProduct _
  | CallProductTable | CallGenerateId => true
  | _ => false
  end.

(** The error of a guarded [Order] method on an order that is not listed. *)
Definition order_does_not_exist {A} : res A :=
  Err (ValueError "Order does not exist").

(** [Product("Mouse", ...)] in a fresh process, then [Order()],
    [add_product(mouse, 5)] and [delete()]. *)
Definition deleted_order_world : World :=
  after (CallDelete 0%nat) cart_world.

(** The number the next order gets. *)
Definition next_order_id (w : World) : Z :=
  match _order_id w with
  | None => 10000
  | Some c => c + 1
  end.

(** The state after [Order()] on [day]: a new empty, open order, listed
    last. *)
Definition with_new_order (day : string) (w : World) : World :=
  with_orders (orders w ++ [length (oheap w)])
    (with_oheap (oheap w ++ [mkOrder [] (next_order_id w) day None false])
       (with_order_id (Some (next_order_id w)) w)).

(** * Properties *)

(** ** Maintaining an invariant through a computation *)

Section Keeps.
Context (I : World -> Prop).

Lemma keeps_ret {A} (a : A) : keeps I (mret a : M A).
Proof. intros w Hw. exact Hw. Qed.

Lemma keeps_raise {A} (e : exn) : keeps I (raise e : M A).
Proof. intros w Hw. exact Hw. Qed.

Lemma keeps_lift {A} (r : res A) : keeps I (lift r).
Proof. intros w Hw. exact Hw. Qed.

Lemma keeps_gets {A} (f : World -> A) : keeps I (gets f).
Proof. intros w Hw. exact Hw. Qed.

Lemma keeps_get_product (r : ref) : keeps I (get_product r).
Proof. intros w Hw. unfold get_product. destruct (heap w !! r); exact Hw. Qed.

Lemma keeps_get_order (o : oref) : keeps I (get_order o).
Proof. intros w Hw. unfold get_order. destruct (oheap w !! o); exact Hw. Qed.

Lemma keeps_bind {A B} (m : M A) (k : A -> M B) :
  keeps I m -> (forall a, keeps I (k a)) -> keeps I (m ≫= k).
Proof.
  intros Hm Hk w Hw. specialize (Hm w Hw).
  unfold mbind, M_bind, bind. destruct (m w) as [[a|e] w']; simpl in *.
  - apply Hk, Hm.
  - exact Hm.
Qed.

(** The continuation only has to cope with values [m] can return. *)
Lemma keeps_bind_returned {A B} (m : M A) (k : A -> M B) :
  keeps I m ->
  (forall a, (exists w, (m w).1 = Ok a) -> keeps I (k a)) ->
  keeps I (m ≫= k).
Proof.
  intros Hm Hk w Hw. specialize (Hm w Hw).
  unfold mbind, M_bind, bind. destruct (m w) as [[a|e] w'] eqn:E; simpl in *.
  - apply Hk; [exists w; rewrite E; reflexivity | exact Hm].
  - exact Hm.
Qed.

Lemma keeps_try {A} (m : M A) (handler : string -> M A) :
  keeps I m -> (forall e, keeps I (handler e)) ->
  keeps I (try_except_ValueError m handler).
Proof.
  intros Hm Hh w Hw. specialize (Hm w Hw).
  unfold try_except_ValueError.
  destruct (m w) as [[a|[msg|msg|msg|]] w']; simpl in *; try exact Hm.
  apply Hh, Hm.
Qed.

Lemma keeps_discard {A} (m : M A) : keeps I m -> keeps I (discard m).
Proof. intros Hm. apply keeps_bind; [exact Hm | intros; apply keeps_ret]. Qed.
End Keeps.

(** One structural step: through a bind, a handler, a branch, or a
    computation that only reads. *)
Ltac keeps_step :=
  match goal with
  | |- keeps _ (mbind _ _) => apply keeps_bind; [| intros ?]
  | |- keeps _ (try_except_ValueError _ _) => apply keeps_try; [| intros ?]
  | |- keeps _ (discard _) => apply keeps_discard
  | |- keeps _ (mret _) => apply keeps_ret
  | |- keeps _ (raise _) => apply keeps_raise
  | |- keeps _ (lift _) => apply keeps_lift
  | |- keeps _ (gets _) => apply keeps_gets
  | |- keeps _ (get_product _) => apply keeps_get_product
  | |- keeps _ (get_order _) => apply keeps_get_order
  | |- keeps _ (if ?b then _ else _) => destruct b
  | |- keeps _ (match ?x with _ => _ end) => destruct x
  end.

Lemma keeps_delete_product_from (I : World -> Prop) :
  (forall idx, keeps I (Product.pop_product idx)) ->
  forall prod, keeps I (Product.delete_product prod).
Proof.
  intros Hpop prod. unfold Product.delete_product. repeat keeps_step. apply Hpop.
Qed.

Create HintDb keeps.

Section Composite.
Context (I : World -> Prop) (ok : value -> Prop) `{!Stable I ok}.

Local Hint Resolve stable_print stable_update_order stable_order_id
  stable_generate_id stable_order_register stable_pop_order stable_pop_product
  stable_set_parent_id stable_set_in_cart stable_set_name
  stable_set_category stable_set_price stable_set_quantity stable_init
  stable_add stable_subtract : keeps.

Ltac keeps_auto := repeat keeps_step; eauto with keeps.

Lemma keeps_validate_product {A} (function : ref -> M A) (self : ref) :
  (forall r, keeps I (function r)) ->
  keeps I (Product.validate_product function self).
Proof. intros Hf. unfold Product.validate_product. keeps_auto. Qed.

Lemma keeps_sub (self : ref) (other : value) : keeps I (Product.__sub__ self other).
Proof. unfold Product.__sub__. keeps_auto. Qed.

Lemma keeps_add_inventory (self : ref) (v : value) :
  ok v -> keeps I (Product.add_inventory self v).
Proof.
  intros Hv. unfold Product.add_inventory.
  apply keeps_validate_product. intros r. keeps_auto.
Qed.

Lemma keeps_remove_inventory (self : ref) (v : value) :
  keeps I (Product.remove_inventory self v).
Proof.
  unfold Product.remove_inventory.
  apply keeps_validate_product. intros r. keeps_auto. apply keeps_sub.
Qed.

Lemma keeps_new (self : ref) (qty : value) (update_original : bool) :
  ok qty -> keeps I (Product.new self qty update_original).
Proof.
  intros Hq. unfold Product.new. keeps_auto. apply keeps_remove_inventory.
Qed.

Lemma keeps_delete_product (prod : ref) : keeps I (Product.delete_product prod).
Proof. apply keeps_delete_product_from, stable_pop_product. Qed.

Lemma keeps_order_validation {A} (function : oref -> M A) (self : oref) :
  (forall o, keeps I (function o)) ->
  keeps I (Order.order_validation function self).
Proof. intros Hf. unfold Order.order_validation. keeps_auto. Qed.

Lemma keeps_add_product (self : oref) (product : ref) (qty : value) :
  ok qty -> keeps I (Order.add_product self product qty).
Proof.
  intros Hq. unfold Order.add_product.
  apply keeps_order_validation. intros o. keeps_auto.
  - apply keeps_new, Hq.
  - unfold Order.append_product. keeps_auto.
Qed.

Lemma keeps_remove_product (self : oref) (product : ref) :
  keeps I (Order.remove_product self product).
Proof.
  unfold Order.remove_product.
  apply keeps_order_validation. intros o. keeps_auto.
Qed.

Lemma keeps_update_product_quantity (self : oref) (product : ref) (new_qty : value) :
  keeps I (Order.update_product_quantity self product new_qty).
Proof.
  unfold Order.update_product_quantity.
  apply keeps_order_validation. intros o.
  keeps_step; [keeps_auto; fail | ].
  keeps_step; [keeps_auto; fail | ].
  keeps_step; [keeps_auto; fail | ].
  keeps_step; [keeps_auto; fail | ].
  apply keeps_bind_returned; [keeps_auto; fail | ].
  intros [|] [w Hret]; [keeps_auto; fail | ].
  destruct new_qty as [|[n|f]|s|r]; try (keeps_auto; fail).
  assert (Hn : ok (VNum (NInt n))).
  { apply ok_not_negative. intros i [= <-].
    revert Hret. unfold truthy, py_le, num_lt_int, num_eq_int, mbind, M_bind, bind, lift.
    simpl. destruct (Z.ltb_spec (int_val n) 0) as [Hneg|Hpos]; [ | intros _; exact Hpos].
    destruct (Z.eqb_spec (int_val n) 0); simpl; discriminate. }
  keeps_auto.
  - apply keeps_remove_inventory.
  - apply keeps_add_inventory, ok_not_negative.
    intros i [= <-]. simpl. apply Z.abs_nonneg.
Qed.

Lemma keeps_clear_products (self : oref) : keeps I (Order.clear_products self).
Proof.
  unfold Order.clear_products.
  apply keeps_order_validation. intros o. keeps_auto.
Qed.

Lemma keeps_delete (self : oref) : keeps I (Order.delete self).
Proof.
  unfold Order.delete.
  apply keeps_order_validation. intros o. keeps_auto.
Qed.

Lemma keeps_checkout (today : string) (self : oref) :
  keeps I (Order.checkout today self).
Proof. unfold Order.checkout, Order.total_price. keeps_auto. Qed.

Lemma keeps_add_items (self : oref) (items : list item) :
  Forall (item_quantity ok) items -> keeps I (Order.add_items self items).
Proof.
  induction 1 as [|it items Hit _ IH]; simpl; [apply keeps_ret | ].
  destruct it as [p qty| p |]; simpl in Hit.
  - keeps_step; [apply keeps_add_product, Hit | exact IH].
  - keeps_step; [ | exact IH].
    apply keeps_add_product, ok_not_negative. intros i [= <-]. simpl. lia.
  - apply keeps_raise.
Qed.

Lemma keeps_order_init (today : string) (items : list item) :
  Forall (item_quantity ok) items -> keeps I (Order.__init__ today items).
Proof.
  intros Hitems. unfold Order.__init__. keeps_auto. apply keeps_add_items, Hitems.
Qed.

Lemma keeps_product_table : keeps I Customer.product_table.
Proof. unfold Customer.product_table. keeps_auto. Qed.

(** Every call maintains a stable invariant. *)
Lemma keeps_exec (c : call) : quantities_satisfy ok c -> keeps I (exec c).
Proof.
  destruct c; simpl; intros Hc; repeat keeps_step;
    eauto using keeps_new, keeps_add_inventory, keeps_remove_inventory,
      keeps_sub, keeps_delete_product, keeps_order_init, keeps_add_product,
      keeps_remove_product, keeps_update_product_quantity,
      keeps_clear_products, keeps_delete, keeps_checkout,
      keeps_product_table with keeps.
Qed.

Lemma reachable_keeps (allowed : call -> Prop) (w : World) :
  (forall c, allowed c -> quantities_satisfy ok c) ->
  I init_world -> reachable allowed w -> I w.
Proof.
  intros Hallowed Hinit. induction 1 as [|w c _ IH Hc]; [exact Hinit | ].
  apply keeps_exec; [apply Hallowed, Hc | exact IH].
Qed.
End Composite.

(** ** Title case and stripping *)

Lemma lower_facts (c : ascii) :
  is_lower c = true ->
  is_upper c = false /\ is_space c = false
  /\ is_lower (to_upper c) = false /\ is_upper (to_upper c) = true
  /\ is_space (to_upper c) = false.
Proof.
  destruct c as [[] [] [] [] [] [] [] []]; vm_compute; intros; try discriminate; done.
Qed.

Lemma upper_facts (c : ascii) :
  is_upper c = true ->
  is_lower c = false /\ is_space c = false
  /\ is_lower (to_lower c) = true /\ is_space (to_lower c) = false.
Proof.
  destruct c as [[] [] [] [] [] [] [] []]; vm_compute; intros; try discriminate; done.
Qed.

Lemma space_facts (c : ascii) :
  is_space c = true -> is_lower c = false /\ is_upper c = false.
Proof.
  destruct c as [[] [] [] [] [] [] [] []]; vm_compute; intros; try discriminate; done.
Qed.

Lemma title_from_idempotent (cased : bool) (s : string) :
  title_from cased (title_from cased s) = title_from cased s.
Proof.
  revert cased. induction s as [|c s IH]; intros cased; [reflexivity | ]. simpl.
  destruct (is_lower c) eqn:Hl.
  - destruct (lower_facts c Hl) as (_ & _ & Hl' & Hu' & _).
    destruct cased; simpl.
    + rewrite Hl, IH. reflexivity.
    + rewrite Hl', Hu', IH. reflexivity.
  - destruct (is_upper c) eqn:Hu.
    + destruct (upper_facts c Hu) as (_ & _ & Hl' & _).
      destruct cased; simpl.
      * rewrite Hl', IH. reflexivity.
      * rewrite Hl, Hu, IH. reflexivity.
    + simpl. rewrite Hl, Hu, IH. reflexivity.
Qed.

Lemma lstrip_title (s : string) : lstrip (title s) = title (lstrip s).
Proof.
  unfold title. induction s as [|c s IH]; [reflexivity | ]. simpl.
  destruct (is_space c) eqn:Hs.
  - destruct (space_facts c Hs) as [-> ->]. simpl. rewrite Hs. exact IH.
  - simpl. destruct (is_lower c) eqn:Hl.
    + destruct (lower_facts c Hl) as (_ & _ & _ & _ & Hs'). simpl. rewrite Hs'. reflexivity.
    + destruct (is_upper c) eqn:Hu; simpl; rewrite Hs; reflexivity.
Qed.

Lemma title_from_empty (cased : bool) (s : string) :
  title_from cased s = "" -> s = "".
Proof.
  destruct s as [|c s]; [reflexivity | ]. simpl.
  destruct (is_lower c); [discriminate | ]. destruct (is_upper c); discriminate.
Qed.

Lemma rstrip_title_from (cased : bool) (s : string) :
  rstrip (title_from cased s) = title_from cased (rstrip s).
Proof.
  revert cased. induction s as [|c s IH]; intros cased; [reflexivity | ].
  assert (Hstep : forall c' cased',
            is_space c' = is_space c ->
            title_from cased (String c EmptyString) = String c' EmptyString ->
            (forall t, title_from cased (String c t) = String c' (title_from cased' t)) ->
            rstrip (String c' (title_from cased' s)) = title_from cased (rstrip (String c s))).
  { intros c' cased' Hs H1 Hall. simpl. rewrite IH.
    destruct (rstrip s) as [|d t] eqn:Hr.
    - simpl. rewrite Hs. destruct (is_space c); [reflexivity | ]. symmetry. exact H1.
    - rewrite Hall. destruct (title_from cased' (String d t)) eqn:Ht; [ | reflexivity].
      apply title_from_empty in Ht. discriminate. }
  simpl title_from at 1.
  destruct (is_lower c) eqn:Hl.
  - destruct (lower_facts c Hl) as (_ & Hs & _ & _ & Hs').
    apply Hstep.
    + destruct cased; congruence.
    + simpl. rewrite Hl. reflexivity.
    + intros t. simpl. rewrite Hl. reflexivity.
  - destruct (is_upper c) eqn:Hu.
    + destruct (upper_facts c Hu) as (_ & Hs & _ & Hs').
      apply Hstep.
      * destruct cased; congruence.
      * simpl. rewrite Hl, Hu. reflexivity.
      * intros t. simpl. rewrite Hl, Hu. reflexivity.
    + apply Hstep.
      * reflexivity.
      * simpl. rewrite Hl, Hu. reflexivity.
      * intros t. simpl. rewrite Hl, Hu. reflexivity.
Qed.

Lemma strip_title (s : string) : strip (title s) = title (strip s).
Proof. unfold strip. rewrite lstrip_title. apply rstrip_title_from. Qed.

Lemma rstrip_idempotent (s : string) : rstrip (rstrip s) = rstrip s.
Proof.
  induction s as [|c s IH]; [reflexivity | ]. simpl.
  destruct (rstrip s) as [|d t] eqn:Hr.
  - destruct (is_space c) eqn:Hs; [reflexivity | ]. simpl. rewrite Hs. reflexivity.
  - change (rstrip (String c (String d t))) with
      (match rstrip (String d t) with
       | EmptyString => if is_space c then EmptyString else String c EmptyString
       | u => String c u
       end).
    rewrite IH. reflexivity.
Qed.

Lemma lstrip_rstrip_lstrip (s : string) : lstrip (rstrip (lstrip s)) = rstrip (lstrip s).
Proof.
  induction s as [|c s IH]; [reflexivity | ]. simpl.
  destruct (is_space c) eqn:Hs; [exact IH | ].
  simpl. destruct (rstrip s); simpl; rewrite ?Hs; simpl; rewrite ?Hs; reflexivity.
Qed.

Lemma strip_idempotent (s : string) : strip (strip s) = strip s.
Proof. unfold strip. rewrite lstrip_rstrip_lstrip. apply rstrip_idempotent. Qed.

(** What a setter stores is a fixed point of the setter's normalisation. *)
Lemma strip_title_normal (s : string) : strip (title (strip (title s))) = strip (title s).
Proof.
  rewrite <- strip_title, strip_idempotent. unfold title.
  rewrite title_from_idempotent. reflexivity.
Qed.

(** ** The invariants are stable *)

Lemma consistent_frame (w w' : World) :
  heap w' = heap w -> products w' = products w -> _id_counter w' = _id_counter w ->
  consistent w -> consistent w'.
Proof.
  intros Hh Hp Hc [Hvalid Hflag Hids Hattr].
  split; rewrite ?Hh, ?Hp, ?Hc; assumption.
Qed.

Lemma consistent_update (r : ref) (f : ProductObj -> ProductObj) :
  (forall p, _in_cart (f p) = _in_cart p) ->
  (forall p, _product_id (f p) = _product_id p) ->
  (forall p, attributes_checked p -> attributes_checked (f p)) ->
  keeps consistent (update_product r f).
Proof.
  intros Hflag Hid Hattr w [Hv Hf Hi Ha]. unfold update_product.
  destruct (heap w !! r) as [p|] eqn:E; simpl; [ | by split].
  split; simpl.
  - intros r' Hr'. apply lookup_lt_is_Some. rewrite length_insert.
    apply lookup_lt_is_Some, Hv, Hr'.
  - intros r' p' [(-> & <- & _)|[_ Hp']]%list_lookup_insert_Some.
    + rewrite Hflag. eapply Hf, E.
    + eapply Hf, Hp'.
  - intros r' p' [(-> & <- & _)|[_ Hp']]%list_lookup_insert_Some.
    + rewrite Hid. eapply Hi, E.
    + eapply Hi, Hp'.
  - intros r' p' [(-> & <- & _)|[_ Hp']]%list_lookup_insert_Some.
    + eapply Hattr, Ha, E.
    + eapply Ha, Hp'.
Qed.

(** An assignment through a setter that keeps the other attributes. *)
Lemma consistent_assign {A} (checked : res A) (r : ref) (f : A -> ProductObj -> ProductObj) :
  (forall a p, _in_cart (f a p) = _in_cart p) ->
  (forall a p, _product_id (f a p) = _product_id p) ->
  (forall a p, checked = Ok a -> attributes_checked p -> attributes_checked (f a p)) ->
  keeps consistent (a ← lift checked; update_product r (f a)).
Proof.
  intros Hflag Hid Hattr w Hw. unfold mbind, M_bind, bind, lift.
  destruct checked as [a|e]; [ | exact Hw].
  apply consistent_update; auto.
Qed.

Lemma name_setter_normal (v : value) (n : string) :
  Product.name_setter v = Ok n -> normal n.
Proof.
  unfold Product.name_setter. destruct (negb (truthy v)); [discriminate | ].
  destruct v; simpl; try discriminate. intros [= <-]. apply strip_title_normal.
Qed.

Lemma category_setter_normal (v : value) (c : string) :
  Product.category_setter v = Ok c -> normal c.
Proof.
  unfold Product.category_setter. destruct (negb (truthy v)); [discriminate | ].
  destruct v; simpl; try discriminate. intros [= <-]. apply strip_title_normal.
Qed.

Lemma price_setter_truthy (v : value) (x : pynum) :
  Product.price_setter v = Ok x -> truthy (VNum x) = true.
Proof.
  unfold Product.price_setter. destruct v as [|n|s|r]; try discriminate.
  destruct (truthy (VNum n)) eqn:E; simpl; [ | discriminate]. by intros [= <-].
Qed.

Lemma consistent_pop_product (idx : nat) : keeps consistent (Product.pop_product idx).
Proof.
  intros w [Hv Hf Hi Ha]. split; simpl; [ | assumption | assumption | assumption].
  intros r Hr. apply Hv. eapply list_elem_of_delete_inv, Hr.
Qed.

Lemma consistent_init (name category price quantity : value) :
  keeps consistent (Product.__init__ name category price quantity).
Proof.
  intros w [Hv Hf Hi Ha].
  unfold Product.__init__, mbind, M_bind, bind, lift, Product.generate_id,
    Product.register.
  destruct (py_title name) as [titled|]; simpl; [ | by split].
  destruct (Product.name_setter (VStr titled)) as [n|] eqn:En; simpl; [ | by split].
  destruct (Product.quantity_setter quantity) as [q|]; simpl; [ | by split].
  destruct (Product.price_setter price) as [p|] eqn:Ep; simpl; [ | by split].
  set (c := match _id_counter w with Some c => c + 1 | None => 100000 end).
  assert (Hold : forall r p', heap w !! r = Some p' ->
            exists k, k <= c /\ _product_id p' = pretty k).
  { intros r p' Hp'. destruct (Hi r p' Hp') as (k & c0 & Hc0 & Hk & Hid).
    exists k. split; [ | exact Hid]. subst c. rewrite Hc0. lia. }
  destruct (Product.category_setter category) as [cat|] eqn:Ec; simpl.
  - split; simpl.
    + intros r [Hr| ->%list_elem_of_singleton]%elem_of_app;
        apply lookup_lt_is_Some; rewrite length_app; simpl.
      * apply Hv, lookup_lt_is_Some in Hr. lia.
      * lia.
    + intros r p' [[_ Hp']|[_ <-]]%lookup_snoc_Some; [eapply Hf, Hp' | reflexivity].
    + intros r p' [[_ Hp']|[_ <-]]%lookup_snoc_Some.
      * destruct (Hold r p' Hp') as (k & Hk & Hid). exists k, c. done.
      * exists c, c. simpl. split; [done | split; [lia | done]].
    + intros r p' [[_ Hp']|[_ <-]]%lookup_snoc_Some; [eapply Ha, Hp' | ].
      repeat split; simpl.
      * eapply name_setter_normal, En.
      * eapply category_setter_normal, Ec.
      * eapply price_setter_truthy, Ep.
  - split; simpl; [assumption | assumption | | assumption].
    intros r p' Hp'. destruct (Hold r p' Hp') as (k & Hk & Hid). exists k, c. done.
Qed.

#[global] Instance consistent_stable : Stable consistent (fun _ => True).
Proof.
  split; try (intros; exact Logic.I);
    try (intros; intros w Hw; eapply consistent_frame, Hw; reflexivity).
  - intros o f w Hw. unfold update_order.
    destruct (oheap w !! o); [eapply consistent_frame, Hw; reflexivity | exact Hw].
  - apply consistent_pop_product.
  - intros. by apply consistent_update.
  - intros. by apply consistent_assign.
  - intros. apply consistent_assign; try done.
    intros n p Hn (_ & Hc & Hp). repeat split; try done.
    eapply name_setter_normal, Hn.
  - intros. apply consistent_assign; try done.
    intros c p Hc (Hn & _ & Hp). repeat split; try done.
    eapply category_setter_normal, Hc.
  - intros. apply consistent_assign; try done.
    intros x p Hx (Hn & Hc & _). repeat split; try done.
    eapply price_setter_truthy, Hx.
  - intros. by apply consistent_assign.
  - intros. apply consistent_init.
  - intros. unfold Product.__add__.
    repeat keeps_step; try by apply consistent_update.
    by apply consistent_assign.
  - intros. unfold Product.subtract.
    repeat keeps_step; try by apply consistent_assign.
    apply keeps_delete_product_from, consistent_pop_product.
  - intros w [Hv Hf Hi Ha]. split; simpl; [assumption | assumption | | assumption].
    intros r p Hp. destruct (Hi r p Hp) as (k & c & Hc & Hk & Hid).
    rewrite Hc. exists k, (c + 1). split; [done | split; [lia | done]].
Qed.

Lemma positive_frame (w w' : World) :
  heap w' = heap w -> quantities_positive w -> quantities_positive w'.
Proof. intros Hh Hw r p. rewrite Hh. apply Hw. Qed.

Lemma positive_update (r : ref) (f : ProductObj -> ProductObj) :
  (forall p, 0 < int_val (_quantity p) -> 0 < int_val (_quantity (f p))) ->
  keeps quantities_positive (update_product r f).
Proof.
  intros Hf w Hw. unfold update_product.
  destruct (heap w !! r) as [p|] eqn:E; simpl; [ | exact Hw].
  intros r' p' [(-> & <- & _)|[_ Hp']]%list_lookup_insert_Some.
  - eapply Hf, Hw, E.
  - eapply Hw, Hp'.
Qed.

(** What the [quantity] setter lets through is a non-zero [int]. *)
Lemma quantity_setter_Ok (v : value) (q : pyint) :
  Product.quantity_setter v = Ok q <-> v = VNum (NInt q) /\ int_val q <> 0.
Proof.
  unfold Product.quantity_setter.
  destruct v as [|[i|f]|s|r]; simpl; try (split; [discriminate | intros [[=] _]]).
  destruct (Z.eqb_spec (int_val i) 0) as [Hz|Hz]; simpl.
  - split; [discriminate | ]. intros [[= ->] Hq]. contradiction.
  - split; [intros [= ->]; done | intros [[= ->] _]; done].
Qed.

Lemma positive_set_quantity (r : ref) (v : value) :
  not_negative v -> keeps quantities_positive (Product.set_quantity_checked r v).
Proof.
  intros Hv. unfold Product.set_quantity_checked.
  destruct (Product.quantity_setter v) as [q|e] eqn:E.
  - apply quantity_setter_Ok in E as [-> Hq]. specialize (Hv q eq_refl).
    intros w Hw. unfold mbind, M_bind, bind, lift.
    apply positive_update; [ | exact Hw]. intros; simpl. lia.
  - intros w Hw. exact Hw.
Qed.

Lemma positive_init (name category price quantity : value) :
  not_negative quantity ->
  keeps quantities_positive (Product.__init__ name category price quantity).
Proof.
  intros Hq w Hw.
  unfold Product.__init__, mbind, M_bind, bind, lift, Product.generate_id,
    Product.register.
  destruct (py_title name) as [titled|]; simpl; [ | exact Hw].
  destruct (Product.name_setter (VStr titled)) as [n|]; simpl; [ | exact Hw].
  destruct (Product.quantity_setter quantity) as [q|] eqn:E; simpl; [ | exact Hw].
  apply quantity_setter_Ok in E as [-> Hnz]. specialize (Hq q eq_refl).
  destruct (Product.price_setter price) as [p|]; simpl; [ | exact Hw].
  destruct (Product.category_setter category) as [cat|]; simpl; [ | exact Hw].
  intros r p' [[_ Hp']|[_ <-]]%lookup_snoc_Some; [eapply Hw, Hp' | simpl; lia].
Qed.

Lemma positive_add (self : ref) (other : value) :
  not_negative other -> keeps quantities_positive (Product.__add__ self other).
Proof.
  intros Hother w Hw.
  destruct other as [|[i|f]|s|o]; simpl; try exact Hw.
  - specialize (Hother i eq_refl).
    unfold mbind, M_bind, bind, get_product, update_product.
    destruct (heap w !! self) as [p|] eqn:E; simpl; [ | exact Hw].
    rewrite E. simpl.
    intros r' p' [(-> & <- & _)|[_ Hp']]%list_lookup_insert_Some.
    + simpl. specialize (Hw _ _ E). lia.
    + eapply Hw, Hp'.
  - unfold mbind, M_bind, bind, get_product.
    destruct (heap w !! self) as [p|] eqn:E; simpl; [ | exact Hw].
    destruct (heap w !! o) as [po|] eqn:Eo; simpl; [ | exact Hw].
    destruct (Product.__ne__ p po); simpl; [exact Hw | ].
    pose proof (Hw _ _ E). pose proof (Hw _ _ Eo).
    assert (Hk : keeps quantities_positive
              (Product.set_quantity_checked self
                 (vint (int_val (_quantity p) + int_val (_quantity po))))).
    { apply positive_set_quantity. intros i [= <-]. simpl. lia. }
    specialize (Hk w Hw).
    destruct (Product.set_quantity_checked self _ w) as [[[]|err] w']; exact Hk.
Qed.

Lemma positive_subtract (self : ref) (n : Z) :
  keeps quantities_positive (Product.subtract self n).
Proof.
  intros w Hw. unfold Product.subtract, mbind, M_bind, bind, get_product.
  destruct (heap w !! self) as [p|] eqn:E; simpl; [ | exact Hw].
  destruct (Z.ltb_spec (int_val (_quantity p)) n); simpl; [exact Hw | ].
  destruct (Z.eqb_spec n (int_val (_quantity p))); simpl.
  - assert (Hk : keeps quantities_positive (Product.delete_product self)).
    { apply keeps_delete_product_from. intros idx w0 Hw0. exact Hw0. }
    specialize (Hk w Hw).
    destruct (Product.delete_product self w) as [[[]|err] w']; exact Hk.
  - assert (Hk : keeps quantities_positive
              (Product.set_quantity_checked self (vint (int_val (_quantity p) - n)))).
    { apply positive_set_quantity. intros i [= <-]. simpl. lia. }
    specialize (Hk w Hw).
    destruct (Product.set_quantity_checked self _ w) as [[[]|err] w']; exact Hk.
Qed.

#[global] Instance positive_stable : Stable quantities_positive not_negative.
Proof.
  split; try (intros; intros w Hw; exact Hw).
  - auto.
  - intros o f w Hw. unfold update_order. destruct (oheap w !! o); exact Hw.
  - intros. by apply positive_update.
  - intros. unfold Product.set_in_cart. repeat keeps_step. by apply positive_update.
  - intros. unfold Product.set_name_checked. repeat keeps_step. by apply positive_update.
  - intros. unfold Product.set_category_checked. repeat keeps_step.
    by apply positive_update.
  - intros. unfold Product.set_price_checked. repeat keeps_step. by apply positive_update.
  - intros. by apply positive_set_quantity.
  - intros. by apply positive_init.
  - intros. by apply positive_add.
  - intros. apply positive_subtract.
Qed.

Lemma any_quantities (c : call) : quantities_satisfy (fun _ => True) c.
Proof.
  destruct c; simpl; try exact Logic.I.
  induction items as [|[]]; constructor; simpl; auto.
Qed.

Lemma consistent_init_world : consistent init_world.
Proof.
  split; simpl.
  - intros r Hr. by apply elem_of_nil in Hr.
  - intros r p Hp. by rewrite lookup_nil in Hp.
  - intros r p Hp. by rewrite lookup_nil in Hp.
  - intros r p Hp. by rewrite lookup_nil in Hp.
Qed.

Lemma reachable_consistent (allowed : call -> Prop) (w : World) :
  reachable allowed w -> consistent w.
Proof.
  apply (reachable_keeps consistent (fun _ => True)).
  - intros c _. apply any_quantities.
  - apply consistent_init_world.
Qed.

Lemma reachable_positive (w : World) :
  reachable no_negative_quantity w -> quantities_positive w.
Proof.
  apply (reachable_keeps quantities_positive not_negative).
  - intros c Hc. exact Hc.
  - intros r p Hp. simpl in Hp. by rewrite lookup_nil in Hp.
Qed.

(** ** Orders *)

Lemma list_contains_eqb (x : nat) (l : list nat) :
  list_contains (Nat.eqb x) l = true <-> x ∈ l.
Proof.
  unfold list_contains. rewrite existsb_exists. split.
  - intros (y & Hy & ->%Nat.eqb_eq). by apply list_elem_of_In.
  - intros Hx. exists x. split; [by apply list_elem_of_In | apply Nat.eqb_refl].
Qed.

Lemma order_validation_checked_out {A} (function : oref -> M A) (w : World)
    (self : oref) (o : OrderObj) :
  oheap w !! self = Some o -> _checkout_status o = true ->
  Order.order_validation function self w = (already_checked_out, w).
Proof.
  intros Ho Hs. unfold Order.order_validation, mbind, M_bind, bind, get_order.
  rewrite Ho, Hs. reflexivity.
Qed.

Lemma order_validation_open {A} (function : oref -> M A) (w : World)
    (self : oref) (o : OrderObj) :
  oheap w !! self = Some o -> _checkout_status o = false -> self ∈ orders w ->
  Order.order_validation function self w = function self w.
Proof.
  intros Ho Hs Hin. unfold Order.order_validation, mbind, M_bind, bind, get_order, gets.
  rewrite Ho, Hs. apply list_contains_eqb in Hin. rewrite Hin. reflexivity.
Qed.

(** C7 (order.py, [order_validation]): on an order whose checkout flag is
    true, [add_product], [remove_product], [update_product_quantity],
    [clear_products] and [delete] all raise the "already checked out"
    [ValueError] and leave the whole state, cart and catalog included, as it
    was; with an empty cart, the cart is still empty after [add_product]. *)
Theorem C7_checked_out_order_is_frozen (w : World) (self : oref) (o : OrderObj) :
  oheap w !! self = Some o ->
  _checkout_status o = true ->
  (forall product qty, Order.add_product self product qty w = (already_checked_out, w))
  /\ (forall product, Order.remove_product self product w = (already_checked_out, w))
  /\ (forall product new_qty,
        Order.update_product_quantity self product new_qty w = (already_checked_out, w))
  /\ Order.clear_products self w = (already_checked_out, w)
  /\ Order.delete self w = (already_checked_out, w)
  /\ (_products o = [] ->
      forall product qty,
        _products <$> oheap (Order.add_product self product qty w).2 !! self = Some []).
Proof.
  intros Ho Hs.
  repeat split; intros;
    try (eapply order_validation_checked_out; eassumption).
  unfold Order.add_product.
  erewrite order_validation_checked_out by eassumption.
  simpl. rewrite Ho. simpl. congruence.
Qed.

Lemma C7_checked_out_order_is_frozen_witness :
  Order.add_product 0%nat 0%nat (vint 1) checked_out_world
    = (already_checked_out, checked_out_world)
  /\ Order.clear_products 0%nat checked_out_world
    = (already_checked_out, checked_out_world).
Proof.
  pose proof (C7_checked_out_order_is_frozen checked_out_world 0%nat
                (mkOrder [1%nat] 10000 today (Some today) true) eq_refl eq_refl)
    as (Hadd & _ & _ & Hclear & _).
  split; [apply Hadd | exact Hclear].
Defined.

(** C9 (order.py, [checkout]): on a checked-out order [checkout] raises,
    naming the recorded checkout date, and changes nothing; on an open
    order with an empty cart it prints the condition and changes nothing
    else, so the flag stays false and the date stays as it was; on an open
    order with a non-empty cart it sets the flag and records the date, and
    touches neither the cart nor the catalog. *)
Theorem C9_checkout (w : World) (day : string) (self : oref) (o : OrderObj) :
  oheap w !! self = Some o ->
  match _checkout_status o, _products o with
  | true, _ =>
      Order.checkout day self w
      = (Err (ValueError ("Already checked out. Checkout date: "
                          +:+ Order.str_date (_checkout_date o))), w)
  | false, [] =>
      Order.checkout day self w
      = (Ok tt, with_stdout (stdout w ++ [Line "Unable to checkout. No product in cart"]) w)
  | false, _ :: _ =>
      let w' := (Order.checkout day self w).2 in
      oheap w' !! self
        = Some (mkOrder (_products o) (_id o) (_created_date o) (Some day) true)
      /\ heap w' = heap w /\ products w' = products w
  end.
Proof.
  intros Ho. unfold Order.checkout, mbind, M_bind, bind, get_order.
  rewrite Ho. destruct (_checkout_status o) eqn:Hs; [reflexivity | ].
  destruct (_products o) as [|r l] eqn:Hl; [reflexivity | ].
  simpl. unfold update_order. rewrite Ho. simpl.
  assert (Hlook : <[self:=set_checkout day o]> (oheap w) !! self
                  = Some (mkOrder (r :: l) (_id o) (_created_date o) (Some day) true)).
  { rewrite list_lookup_insert_eq by (eapply lookup_lt_Some, Ho).
    unfold set_checkout. by rewrite Hl. }
  unfold Order.total_price, mbind, M_bind, bind, gets. simpl.
  destruct (negb (list_contains (Nat.eqb self) (orders w))); simpl; done.
Qed.

Lemma C9_checkout_witness :
  Order.checkout today 0%nat checked_out_world
  = (Err (ValueError "Already checked out. Checkout date: 2026-11-03"), checked_out_world).
Proof.
  exact (C9_checkout checked_out_world today 0%nat
           (mkOrder [1%nat] 10000 today (Some today) true) eq_refl).
Defined.

(** C10 (order.py, [clear_products]): on an open order that is in
    [Order.orders] the call returns the order with an empty cart and writes
    nothing else: no instance of [Product] changes, so no quantity goes
    back to stock, and [Product.products] keeps its members. *)
Theorem C10_clear_products (w : World) (self : oref) (o : OrderObj) :
  oheap w !! self = Some o ->
  _checkout_status o = false ->
  self ∈ orders w ->
  Order.clear_products self w
  = (Ok self, with_oheap (<[self := set_products [] o]> (oheap w)) w)
  /\ heap (Order.clear_products self w).2 = heap w
  /\ products (Order.clear_products self w).2 = products w
  /\ _products <$> oheap (Order.clear_products self w).2 !! self = Some [].
Proof.
  intros Ho Hs Hin.
  assert (E : Order.clear_products self w
              = (Ok self, with_oheap (<[self := set_products [] o]> (oheap w)) w)).
  { unfold Order.clear_products. erewrite order_validation_open by eassumption.
    unfold mbind, M_bind, bind, update_order. rewrite Ho. reflexivity. }
  rewrite E. simpl. repeat split.
  rewrite list_lookup_insert_eq by (eapply lookup_lt_Some, Ho). reflexivity.
Qed.

Lemma C10_clear_products_witness :
  heap (Order.clear_products 0%nat cart_world).2 = heap cart_world
  /\ products (Order.clear_products 0%nat cart_world).2 = [0%nat; 1%nat].
Proof.
  assert (Hin : 0%nat ∈ orders cart_world)
    by (apply list_elem_of_singleton; reflexivity).
  destruct (C10_clear_products cart_world 0%nat
              (mkOrder [1%nat] 10000 today None false) eq_refl eq_refl Hin)
    as (_ & Hheap & Hproducts & _).
  split; [exact Hheap | exact Hproducts].
Defined.

(** ** The reservation flag *)

Lemma in_cart_absent (p : ProductObj) :
  _in_cart p = None -> Product.in_cart p = Err no_in_cart_attribute.
Proof. unfold Product.in_cart. intros ->. reflexivity. Qed.

(** The sibling lookup raises at the first unit of the lineage and finds
    nothing when there is none. *)
Lemma first_unreserved_absent (h : list ProductObj) (parent : string) (l : list ref) :
  (forall r, r ∈ l -> is_Some (h !! r)) ->
  (forall r p, h !! r = Some p -> _in_cart p = None) ->
  Order.first_unreserved h parent l
  = if has_lineage h parent l then Err no_in_cart_attribute else Ok None.
Proof.
  intros Hvalid Hflag. induction l as [|r l IH]; simpl; [reflexivity | ].
  destruct (Hvalid r) as [p Hp]; [left | ]. rewrite Hp.
  destruct (String.eqb (_parent_id p) parent); simpl.
  - rewrite in_cart_absent by (eapply Hflag, Hp). reflexivity.
  - apply IH. intros r' Hr'. apply Hvalid. by right.
Qed.

Lemma available_absent (h : list ProductObj) (l : list ref) :
  (forall r, r ∈ l -> is_Some (h !! r)) ->
  (forall r p, h !! r = Some p -> _in_cart p = None) ->
  l <> [] ->
  Customer.available h l = Err no_in_cart_attribute.
Proof.
  intros Hvalid Hflag Hne. destruct l as [|r l]; [done | ]. simpl.
  destruct (Hvalid r) as [p Hp]; [left | ]. rewrite Hp.
  rewrite in_cart_absent by (eapply Hflag, Hp). reflexivity.
Qed.

(** Taking apart the next test of a computation that is being run. *)
Ltac run_step :=
  match goal with
  | |- context [match ?x with _ => _ end] =>
      lazymatch x with
      | context [match _ with _ => _ end] => fail
      | _ => destruct x eqn:?
      end
  end; simpl.

Lemma update_product_quantity_raises (w : World) (self : oref) (product : ref)
    (new_qty : value) :
  consistent w ->
  exists e, Order.update_product_quantity self product new_qty w = (Err e, w).
Proof.
  intros [Hvalid Hflag _ _].
  unfold Order.update_product_quantity, Order.order_validation,
    mbind, M_bind, bind, get_order, get_product, gets, lift, raise.
  repeat (try rewrite (first_unreserved_absent _ _ _ Hvalid Hflag); run_step);
    eauto; congruence.
Qed.

Lemma reachable_cart_world (allowed : call -> Prop) :
  allowed (NewProduct (VStr "Mouse") (VStr "Electronics") (vfloat 30) (vint 50)) ->
  allowed (NewOrder today []) ->
  allowed (CallAddProduct 0%nat 0%nat (vint 5)) ->
  reachable allowed cart_world.
Proof.
  intros H0 H1 H2. unfold cart_world, mouse_world.
  repeat (apply reachable_step; [ | assumption]). apply reachable_init.
Qed.

(** C4 (products.py, [in_cart]; order.py and customer.py, its readers):
    in every state a client can reach, whatever it calls, no [Product]
    instance has the attribute [_in_cart] the getter reads, since the
    setter writes [_incart]; so reading [in_cart] raises [AttributeError]
    on every instance, units made by [new] and flagged by [add_product]
    included.  The sibling lookup of [update_product_quantity] raises it as
    soon as a registered unit has the parent id, and the method never
    returns; the listing of available products raises it as soon as the
    registry has a unit. *)
Theorem C4_in_cart_cannot_be_read (w : World) :
  reachable any_call w ->
  (forall r p, heap w !! r = Some p -> Product.in_cart p = Err no_in_cart_attribute)
  /\ (forall parent,
        has_lineage (heap w) parent (products w) = true ->
        Order.first_unreserved (heap w) parent (products w) = Err no_in_cart_attribute)
  /\ (forall self product new_qty,
        exists e, Order.update_product_quantity self product new_qty w = (Err e, w))
  /\ (products w <> [] -> Customer.product_table w = (Err no_in_cart_attribute, w)).
Proof.
  intros Hw. pose proof (reachable_consistent _ _ Hw) as Hc.
  destruct Hc as [Hvalid Hflag Hids Hattr]. repeat split.
  - intros r p Hp. eapply in_cart_absent, Hflag, Hp.
  - intros parent Hparent.
    rewrite (first_unreserved_absent _ _ _ Hvalid Hflag), Hparent. reflexivity.
  - intros. by apply update_product_quantity_raises.
  - intros Hne. unfold Customer.product_table, mbind, M_bind, bind, gets, lift. simpl.
    rewrite (available_absent _ _ Hvalid Hflag Hne). reflexivity.
Qed.

Lemma C4_in_cart_cannot_be_read_witness :
  Customer.product_table cart_world = (Err no_in_cart_attribute, cart_world).
Proof.
  destruct (C4_in_cart_cannot_be_read cart_world) as (_ & _ & _ & Htable).
  - apply reachable_cart_world; exact Logic.I.
  - apply Htable. discriminate.
Defined.

(** ** Quantities in the registry *)

Lemma not_negative_vint (z : Z) : 0 <= z -> not_negative (vint z).
Proof. intros Hz i [= <-]. exact Hz. Qed.

(** Where no call passes a negative [int] as a quantity, each unit of
    [Product.products] is an instance whose quantity is strictly positive. *)
Lemma registry_quantities_positive (w : World) :
  reachable no_negative_quantity w -> registry_positive w.
Proof.
  intros Hw r Hr.
  destruct (reachable_consistent _ _ Hw) as [Hvalid _ _ _].
  destruct (Hvalid r Hr) as [p Hp].
  exists p. split; [exact Hp | ]. eapply reachable_positive; eassumption.
Qed.

(** C1 (products.py, [__init__] and the [quantity] setter): construction
    does not keep the quantities of the registry positive.
    [Product("Mouse", "Electronics", 30.0, -5)] in a fresh process returns
    normally and leaves in [Product.products] a unit of quantity -5: the
    [quantity] setter refuses zero and what is not an [int], and lets a
    negative [int] through. *)
Theorem C1_negative_quantity_registered :
  registry_positive init_world
  /\ exec (NewProduct (VStr "Mouse") (VStr "Electronics") (vfloat 30) (vint (-5)))
          init_world
     = (Ok tt, negative_mouse_world)
  /\ products negative_mouse_world = [0%nat]
  /\ heap negative_mouse_world
     = [mkProduct "Mouse" (PInt (-5)) (NFloat (FFin 30)) "100000" "100000"
          "Electronics" false None]
  /\ ~ registry_positive negative_mouse_world.
Proof.
  split; [ | split; [reflexivity | split; [reflexivity | split; [reflexivity | ]]]].
  - intros r Hr. by apply elem_of_nil in Hr.
  - intros Hpos. destruct (Hpos 0%nat) as (p & [= <-] & Hq).
    + apply list_elem_of_singleton. reflexivity.
    + simpl in Hq. lia.
Qed.

(** ** Construction *)

Lemma title_from_eq_empty (cased : bool) (s : string) :
  String.eqb (title_from cased s) "" = String.eqb s "".
Proof.
  destruct s as [|c s]; [reflexivity | ]. simpl.
  destruct (is_lower c); [reflexivity | ]. destruct (is_upper c); reflexivity.
Qed.

Lemma title_eq_empty (s : string) : String.eqb (title s) "" = String.eqb s "".
Proof. apply title_from_eq_empty. Qed.

(** A setter applied to a [str]. *)
Lemma name_setter_str (s : string) :
  Product.name_setter (VStr s)
  = if String.eqb s "" then Err (ValueError "Missing product name")
    else Ok (strip (title s)).
Proof. unfold Product.name_setter. simpl. by destruct (String.eqb s ""). Qed.

Lemma category_setter_str (s : string) :
  Product.category_setter (VStr s)
  = if String.eqb s "" then Err (ValueError "Missing product category")
    else Ok (strip (title s)).
Proof. unfold Product.category_setter. simpl. by destruct (String.eqb s ""). Qed.

Lemma quantity_setter_accepted (v : value) :
  match Product.quantity_setter v with
  | Ok q => accepted_quantity v = true /\ v = VNum (NInt q)
  | Err e => accepted_quantity v = false
             /\ e = ValueError "Missing or invalid product quantity"
  end.
Proof.
  unfold Product.quantity_setter, accepted_quantity.
  destruct v as [|[i|f]|s|r]; simpl; try done.
  destruct (int_val i =? 0); simpl; done.
Qed.

Lemma price_setter_accepted (v : value) :
  match Product.price_setter v with
  | Ok x => accepted_price v = true /\ v = VNum x
  | Err e => accepted_price v = false
             /\ e = ValueError "Missing or invalid product price"
  end.
Proof.
  unfold Product.price_setter, accepted_price.
  destruct v as [|n|s|r]; try done.
  unfold isinstance_number. destruct (truthy (VNum n)); done.
Qed.

(** No instance of a consistent state bears the identifier drawn next. *)
Lemma next_id_fresh (w : World) (r : ref) (p : ProductObj) :
  consistent w -> heap w !! r = Some p -> _product_id p <> next_id w.
Proof.
  intros [_ _ Hids _] Hp. destruct (Hids r p Hp) as (k & c & Hc & Hk & ->).
  unfold next_id, next_counter. rewrite Hc. intros Heq%(inj pretty). lia.
Qed.

(** [Product(name, category, price, quantity)] with two ASCII strings
    raises [ValueError], registering nothing, exactly when the name or the
    category is empty, the price is zero or not a number, or the quantity
    is zero or not an [int].  Otherwise the new instance is appended to the
    store and to [Product.products] with the arguments it was given, an
    identifier no other instance has, and that identifier as its parent
    id. *)
Lemma construction_checked (w : World) (name category : string) (price quantity : value) :
  reachable any_call w ->
  is_ascii name = true -> is_ascii category = true ->
  let outcome := Product.__init__ (VStr name) (VStr category) price quantity w in
  if String.eqb name "" || String.eqb category ""
     || negb (accepted_price price) || negb (accepted_quantity quantity)
  then (exists msg, outcome.1 = Err (ValueError msg))
       /\ heap outcome.2 = heap w /\ products outcome.2 = products w
  else exists p,
       outcome.1 = Ok (length (heap w))
       /\ heap outcome.2 = (heap w ++ [p])%list
       /\ products outcome.2 = (products w ++ [length (heap w)])%list
       /\ _product_id p = next_id w
       /\ _parent_id p = _product_id p
       /\ (forall r p', heap w !! r = Some p' -> _product_id p' <> _product_id p)
       /\ VNum (NInt (_quantity p)) = quantity
       /\ VNum (_price p) = price
       /\ _name p = strip (title (title name))
       /\ _category p = strip (title category).
Proof.
  intros Hw _ _. pose proof (reachable_consistent _ _ Hw) as Hc. cbv zeta.
  pose proof (quantity_setter_accepted quantity) as Hq.
  pose proof (price_setter_accepted price) as Hp.
  unfold Product.__init__, mbind, M_bind, bind, lift, Product.generate_id,
    Product.register, py_title.
  rewrite name_setter_str, category_setter_str, title_eq_empty.
  destruct (String.eqb name ""); [cbn; eauto | ].
  destruct (Product.quantity_setter quantity) as [q|eq]; destruct Hq as [-> ->];
    [ | rewrite !orb_true_r; cbn; eauto].
  destruct (Product.price_setter price) as [x|ep]; destruct Hp as [-> ->];
    [ | rewrite !orb_true_r; cbn; eauto].
  destruct (String.eqb category ""); [cbn; eauto | ].
  cbn. eexists. repeat split.
  intros r p' Hp'. cbn. by apply (next_id_fresh w r).
Qed.

(** C5 (products.py, [__init__] and the [quantity] setter): a quantity of
    -5, which is not a strictly positive integer, is not refused:
    [Product("Mouse", "Electronics", 30.0, -5)] in a fresh process raises
    nothing and returns the new instance, registered with quantity -5. *)
Theorem C5_negative_quantity_constructed :
  positive_integer (vint (-5)) = false
  /\ Product.__init__ (VStr "Mouse") (VStr "Electronics") (vfloat 30) (vint (-5))
       init_world
     = (Ok 0%nat, negative_mouse_world)
  /\ _quantity <$> heap negative_mouse_world !! 0%nat = Some (PInt (-5))
  /\ 0%nat ∈ products negative_mouse_world.
Proof.
  repeat split. apply list_elem_of_singleton. reflexivity.
Qed.

(** ** Splitting and removing inventory where they behave *)

Lemma registered_contains (w : World) (self : ref) :
  self ∈ products w -> list_contains (Product.same (heap w) self) (products w) = true.
Proof.
  intros Hin. unfold list_contains. apply existsb_exists.
  exists self. split; [by apply list_elem_of_In | ].
  unfold Product.same. by rewrite Nat.eqb_refl.
Qed.

(** The outcome of [Product(name, category, price, quantity)] on two
    strings, check by check. *)
Lemma init_outcome (w : World) (name category : string) (price quantity : value) :
  Product.__init__ (VStr name) (VStr category) price quantity w
  = if String.eqb name "" then (Err (ValueError "Missing product name"), w)
    else match Product.quantity_setter quantity with
         | Err e => (Err e, w)
         | Ok q =>
             match Product.price_setter price with
             | Err e => (Err e, w)
             | Ok x =>
                 if String.eqb category ""
                 then (Err (ValueError "Missing product category"),
                       with_id_counter (Some (next_counter w)) w)
                 else (Ok (length (heap w)),
                       mkWorld
                         (heap w ++ [mkProduct (strip (title (title name))) q x
                                       (next_id w) (next_id w)
                                       (strip (title category)) false None])
                         (products w ++ [length (heap w)])
                         (Some (next_counter w))
                         (oheap w) (orders w) (_order_id w) (stdout w))
             end
         end.
Proof.
  unfold Product.__init__, mbind, M_bind, bind, lift, Product.generate_id,
    Product.register, py_title.
  rewrite name_setter_str, category_setter_str, title_eq_empty.
  destruct (String.eqb name ""); [reflexivity | ].
  destruct (Product.quantity_setter quantity); [ | reflexivity].
  destruct (Product.price_setter price); [ | reflexivity].
  destruct (String.eqb category ""); reflexivity.
Qed.

Lemma quantity_setter_nonzero (z : Z) :
  z <> 0 -> Product.quantity_setter (vint z) = Ok (PInt z).
Proof. intros Hz. apply quantity_setter_Ok. done. Qed.

Lemma list_index_contains {A} (same : A -> bool) (l : list A) (idx : nat) :
  list_index same l = Some idx -> list_contains same l = true.
Proof.
  unfold list_contains. revert idx.
  induction l as [|e l IH]; intros idx Hidx; [discriminate | ]. simpl in *.
  destruct (same e); [reflexivity | ].
  destruct (list_index same l) as [i|]; [ | discriminate]. eapply IH. reflexivity.
Qed.

Lemma list_index_app {A} (same : A -> bool) (l l' : list A) (idx : nat) :
  list_index same l = Some idx -> list_index same (l ++ l')%list = Some idx.
Proof.
  revert idx. induction l as [|e l IH]; intros idx Hidx; [discriminate | ]. simpl in *.
  destruct (same e); [exact Hidx | ].
  destruct (list_index same l) as [i|]; [ | discriminate].
  rewrite (IH i eq_refl). exact Hidx.
Qed.

Lemma list_index_ext {A} (f g : A -> bool) (l : list A) :
  (forall e, e ∈ l -> f e = g e) -> list_index f l = list_index g l.
Proof.
  induction l as [|e l IH]; intros Hfg; [reflexivity | ]. simpl.
  rewrite (Hfg e) by left. rewrite IH; [reflexivity | ].
  intros e' He'. apply Hfg. by right.
Qed.

(** Taking fewer units than the product holds lowers its quantity. *)
Lemma subtract_some (w : World) (self : ref) (p : ProductObj) (n : Z) :
  heap w !! self = Some p -> n < int_val (_quantity p) ->
  Product.subtract self n w
  = (Ok (Some self),
     with_heap (<[self := set_quantity (PInt (int_val (_quantity p) - n)) p]> (heap w)) w).
Proof.
  intros Hp Hn. unfold Product.subtract, Product.set_quantity_checked,
    mbind, M_bind, bind, get_product, lift, update_product.
  rewrite Hp.
  destruct (Z.ltb_spec (int_val (_quantity p)) n); [lia | ].
  destruct (Z.eqb_spec n (int_val (_quantity p))); [lia | ].
  rewrite quantity_setter_nonzero by lia. rewrite Hp. reflexivity.
Qed.

(** Taking all of them removes the first unit of [Product.products] that
    [index] finds equal to the product. *)
Lemma subtract_all (w : World) (self : ref) (p : ProductObj) (idx : nat) :
  heap w !! self = Some p ->
  list_index (Product.same (heap w) self) (products w) = Some idx ->
  Product.subtract self (int_val (_quantity p)) w
  = (Ok None, with_products (delete idx (products w)) w).
Proof.
  intros Hp Hidx. unfold Product.subtract, Product.delete_product,
    mbind, M_bind, bind, get_product, gets. rewrite Hp.
  rewrite Z.ltb_irrefl, Z.eqb_refl. simpl.
  rewrite (list_index_contains _ _ _ Hidx), Hidx. reflexivity.
Qed.

Lemma remove_inventory_positive (w : World) (self : ref) (p : ProductObj) (n : Z) :
  heap w !! self = Some p ->
  list_contains (Product.same (heap w) self) (products w) = true ->
  0 < n <= int_val (_quantity p) ->
  Product.remove_inventory self (vint n) w = Product.subtract self n w.
Proof.
  intros Hp Hin Hn.
  unfold Product.remove_inventory, Product.validate_product, mbind, M_bind, bind, gets.
  simpl. rewrite Hin. simpl.
  unfold get_product, lift. rewrite Hp. simpl.
  destruct (Z.ltb_spec n 0); [lia | ]. destruct (Z.eqb_spec n 0); [lia | ]. simpl.
  destruct (Z.ltb_spec (int_val (_quantity p)) n); [lia | ]. reflexivity.
Qed.

Lemma insert_last {A} (l : list A) (x y : A) :
  <[length l := y]> (l ++ [x])%list = (l ++ [y])%list.
Proof. rewrite insert_app_r_alt by lia. by rewrite Nat.sub_diag. Qed.

(** The unit [new] builds from [p], before its parent id is set. *)
Lemma init_copy (w : World) (p : ProductObj) (n : Z) :
  attributes_checked p -> _name p <> "" -> _category p <> "" -> n <> 0 ->
  Product.__init__ (VStr (_name p)) (VStr (_category p)) (VNum (_price p)) (vint n) w
  = (Ok (length (heap w)),
     mkWorld
       (heap w ++ [mkProduct (_name p) (PInt n) (_price p) (next_id w) (next_id w)
                     (_category p) false None])
       (products w ++ [length (heap w)])
       (Some (next_counter w))
       (oheap w) (orders w) (_order_id w) (stdout w)).
Proof.
  intros (Hname & Hcat & Hprice) Hn Hc Hz. rewrite init_outcome.
  apply String.eqb_neq in Hn, Hc. rewrite Hn, Hc.
  rewrite quantity_setter_nonzero by exact Hz.
  unfold Product.price_setter. rewrite Hprice. simpl.
  unfold title at 1. rewrite title_from_idempotent. fold (title (_name p)).
  unfold normal in Hname, Hcat. rewrite Hname, Hcat. reflexivity.
Qed.

(** [new(n)] on a registered product that has a name and a category, for
    fewer units than it holds: the new unit carries the name, category and
    price of the source, [n] units and the source's id as parent id; the
    source keeps the rest. *)
Lemma new_some (w : World) (self : ref) (p : ProductObj) (n : Z) :
  consistent w ->
  heap w !! self = Some p -> self ∈ products w ->
  _name p <> "" -> _category p <> "" ->
  0 < n < int_val (_quantity p) ->
  Product.new self (vint n) true w
  = (Ok (Some (length (heap w))),
     mkWorld
       (<[self := set_quantity (PInt (int_val (_quantity p) - n)) p]>
          (heap w ++ [mkProduct (_name p) (PInt n) (_price p) (next_id w)
                        (_product_id p) (_category p) false None])%list)
       (products w ++ [length (heap w)])
       (Some (next_counter w))
       (oheap w) (orders w) (_order_id w) (stdout w)).
Proof.
  intros Hw Hp Hin Hname Hcat Hn.
  pose proof (attributes_set w Hw self p Hp) as Hattr.
  unfold Product.new, try_except_ValueError.
  unfold mbind, M_bind, bind, get_product, lift. rewrite Hp. simpl.
  destruct (Z.eqb_spec n 0); [lia | ]. simpl.
  destruct (Z.ltb_spec (int_val (_quantity p)) n); [lia | ].
  rewrite init_copy by (done || lia).
  unfold update_product. simpl.
  rewrite list_lookup_middle by reflexivity. simpl.
  rewrite insert_last.
  set (unit := mkProduct (_name p) (PInt n) (_price p) (next_id w) (_product_id p)
                 (_category p) false None).
  set (w2 := with_heap _ _).
  assert (Hp2 : heap w2 !! self = Some p).
  { subst w2. simpl. apply lookup_app_l_Some, Hp. }
  assert (Hin2 : self ∈ products w2).
  { subst w2. simpl. apply elem_of_app. by left. }
  apply registered_contains in Hin2.
  rewrite (remove_inventory_positive w2 self p n Hp2 Hin2) by lia.
  rewrite (subtract_some w2 self p n Hp2) by lia.
  reflexivity.
Qed.

(** [new] for all the units of a product that has a name and a category:
    the new unit is built as before, and the unit that leaves
    [Product.products] is the first one [index] finds equal to the source,
    by id or by parent id. *)
Lemma new_all (w : World) (self : ref) (p : ProductObj) (idx : nat) :
  consistent w ->
  heap w !! self = Some p ->
  list_index (Product.same (heap w) self) (products w) = Some idx ->
  _name p <> "" -> _category p <> "" ->
  0 < int_val (_quantity p) ->
  Product.new self (vint (int_val (_quantity p))) true w
  = (Ok (Some (length (heap w))),
     mkWorld
       (heap w ++ [mkProduct (_name p) (PInt (int_val (_quantity p))) (_price p)
                     (next_id w) (_product_id p) (_category p) false None])
       (delete idx (products w ++ [length (heap w)])%list)
       (Some (next_counter w))
       (oheap w) (orders w) (_order_id w) (stdout w)).
Proof.
  intros Hw Hp Hidx Hname Hcat Hq.
  pose proof (attributes_set w Hw self p Hp) as Hattr.
  unfold Product.new, try_except_ValueError.
  unfold mbind, M_bind, bind, get_product, lift. rewrite Hp. simpl.
  destruct (Z.eqb_spec (int_val (_quantity p)) 0); [lia | ]. simpl.
  rewrite Z.ltb_irrefl.
  rewrite init_copy by (done || lia).
  unfold update_product. simpl.
  rewrite list_lookup_middle by reflexivity. simpl.
  rewrite insert_last.
  set (w2 := with_heap _ _).
  assert (Hp2 : heap w2 !! self = Some p).
  { subst w2. simpl. apply lookup_app_l_Some, Hp. }
  assert (Hidx2 : list_index (Product.same (heap w2) self) (products w2) = Some idx).
  { subst w2. simpl. apply list_index_app. rewrite <- Hidx.
    apply list_index_ext. intros e He. unfold Product.same.
    destruct (registry_valid w Hw e He) as [pe Hpe].
    rewrite (lookup_app_l_Some _ _ _ _ Hpe), (lookup_app_l_Some _ _ _ _ Hp), Hpe, Hp.
    reflexivity. }
  rewrite (remove_inventory_positive w2 self p _ Hp2
             (list_index_contains _ _ _ Hidx2)) by lia.
  rewrite (subtract_all w2 self p idx Hp2 Hidx2).
  reflexivity.
Qed.

(** ** Where the code departs from its documentation *)

(** C2 (order.py, [add_product]; products.py, [new]): with the mouse at 50
    and an open order, [add_product(mouse, -3)] reports both errors and
    returns [None], the cart and the mouse are untouched, but the unit
    that [new] built before [remove_inventory] rejected -3 stays in
    [Product.products], with quantity -3. *)
Theorem C2_failed_split_leaves_a_unit :
  let outcome := Order.add_product 0%nat 0%nat (vint (-3)) open_order_world in
  (Product.new 0%nat (vint (-3)) true open_order_world).1 = Ok None
  /\ outcome.1 = Ok None
  /\ stdout outcome.2 = [Line "New Product Error: Invalid quantity";
                         Line "Product Addition Error: Unable to add product"]
  /\ _products <$> oheap outcome.2 !! 0%nat = Some []
  /\ _quantity <$> heap outcome.2 !! 0%nat = Some (PInt 50)
  /\ products open_order_world = [0%nat]
  /\ products outcome.2 = [0%nat; 1%nat]
  /\ heap outcome.2 !! 1%nat
     = Some (mkProduct "Mouse" (PInt (-3)) (NFloat (FFin 30)) "100001" "100000"
               "Electronics" false None).
Proof. repeat split. Qed.

(** C3 (order.py, [update_product_quantity]; products.py, [in_cart]): with
    a cart line of 5 and its catalog sibling at 45, raising the line to 10
    does not succeed: the sibling lookup reads [in_cart] and the call
    raises [AttributeError], as does the request for 46; both quantities
    stay 5 and 45. *)
Theorem C3_update_quantity_raises :
  _quantity <$> heap cart_world !! 1%nat = Some (PInt 5)
  /\ _quantity <$> heap cart_world !! 0%nat = Some (PInt 45)
  /\ _products <$> oheap cart_world !! 0%nat = Some [1%nat]
  /\ Order.update_product_quantity 0%nat 1%nat (vint 10) cart_world
     = (Err no_in_cart_attribute, cart_world)
  /\ Order.update_product_quantity 0%nat 1%nat (vint 46) cart_world
     = (Err no_in_cart_attribute, cart_world).
Proof. repeat split. Qed.

(** What [add_inventory] does get right: a strictly positive [int] is
    added to the quantity of a registered product ... *)
Lemma add_inventory_positive (w : World) (self : ref) (p : ProductObj) (n : Z) :
  heap w !! self = Some p -> self ∈ products w -> 0 < n ->
  Product.add_inventory self (vint n) w
  = (Ok self,
     with_heap (<[self := set_quantity (PInt (int_val (_quantity p) + n)) p]> (heap w)) w).
Proof.
  intros Hp Hin Hn.
  unfold Product.add_inventory, Product.validate_product, mbind, M_bind, bind, gets.
  simpl. rewrite (registered_contains w self Hin). simpl.
  unfold mbind, M_bind, bind, get_product, update_product. rewrite Hp. simpl.
  rewrite Hp. reflexivity.
Qed.

(** ... and anything that is not an [int] is refused, with the state as
    it was. *)
Lemma add_inventory_not_int (w : World) (self : ref) (v : value) :
  isinstance_int v = false ->
  exists e, Product.add_inventory self v w = (Err e, w).
Proof.
  intros Hv.
  unfold Product.add_inventory, Product.validate_product, mbind, M_bind, bind, gets,
    raise, lift.
  simpl. destruct (list_contains _ _); simpl; [ | eauto].
  rewrite Hv. simpl.
  destruct v as [|[i|f]|s|r]; try discriminate; cbn [py_le]; eauto.
  destruct (num_lt_int (NFloat f) _ || num_eq_int (NFloat f) _); simpl; eauto.
Qed.

(** C6 (products.py, [add_inventory]): the guard joins its two tests with
    [and], so an [int] is never rejected: on the mouse at 50,
    [add_inventory(-5)] returns the product with 45 left,
    [add_inventory(0)] returns it unchanged, and [add_inventory(-50)]
    leaves it registered at 0. *)
Theorem C6_add_inventory_accepts_non_positive :
  let minus_five := Product.add_inventory 0%nat (vint (-5)) mouse_world in
  let zero := Product.add_inventory 0%nat (vint 0) mouse_world in
  let minus_fifty := Product.add_inventory 0%nat (vint (-50)) mouse_world in
  _quantity <$> heap mouse_world !! 0%nat = Some (PInt 50)
  /\ minus_five.1 = Ok 0%nat
  /\ _quantity <$> heap minus_five.2 !! 0%nat = Some (PInt 45)
  /\ zero = (Ok 0%nat, mouse_world)
  /\ minus_fifty.1 = Ok 0%nat
  /\ _quantity <$> heap minus_fifty.2 !! 0%nat = Some (PInt 0)
  /\ products minus_fifty.2 = [0%nat].
Proof. repeat split. Qed.

(** C8 (products.py, [new], [__sub__], [delete_product]): splitting all 5
    units off the cart line, which shares its parent id with the mouse
    registered before it, removes the mouse from [Product.products], the
    first unit [index] finds equal, and leaves the source registered with
    its 5 units; the new unit's parent id is the source's id. *)
Theorem C8_full_split_removes_another_unit :
  let outcome := Product.new 1%nat (vint 5) true cart_world in
  _quantity <$> heap cart_world !! 1%nat = Some (PInt 5)
  /\ products cart_world = [0%nat; 1%nat]
  /\ outcome.1 = Ok (Some 2%nat)
  /\ products outcome.2 = [1%nat; 2%nat]
  /\ _quantity <$> heap outcome.2 !! 1%nat = Some (PInt 5)
  /\ _product_id <$> heap outcome.2 !! 1%nat = Some "100001"
  /\ _parent_id <$> heap outcome.2 !! 2%nat = Some "100001"
  /\ _quantity <$> heap outcome.2 !! 2%nat = Some (PInt 5).
Proof. repeat split. Qed.

(** * Further properties of the code *)

(** ** Inventory of a product *)

Lemma list_index_found {A} (same : A -> bool) (l : list A) (idx : nat) :
  list_index same l = Some idx ->
  exists e, l !! idx = Some e /\ same e = true.
Proof.
  revert idx. induction l as [|e l IH]; intros idx Hidx; [discriminate | ]. simpl in Hidx.
  destruct (same e) eqn:He.
  - injection Hidx as <-. exists e. done.
  - destruct (list_index same l) as [i|]; [ | discriminate]. injection Hidx as <-.
    destruct (IH i eq_refl) as (e' & He' & Hs). exists e'. done.
Qed.

Lemma not_contains_index {A} (same : A -> bool) (l : list A) :
  list_contains same l = false -> list_index same l = None.
Proof.
  unfold list_contains. induction l as [|e l IH]; [reflexivity | ]. simpl.
  destruct (same e); [discriminate | ]. simpl. intros H. by rewrite IH.
Qed.

Lemma mouse_world_reachable (allowed : call -> Prop) :
  allowed (NewProduct (VStr "Mouse") (VStr "Electronics") (vfloat 30) (vint 50)) ->
  reachable allowed mouse_world.
Proof. intros H. apply reachable_step; [apply reachable_init | exact H]. Qed.

Lemma mouse_call_ascii :
  ascii_call (NewProduct (VStr "Mouse") (VStr "Electronics") (vfloat 30) (vint 50)).
Proof. split; reflexivity. Qed.

(** X1 (products.py, [remove_inventory] and [__sub__]): taking [n] units,
    [0 < n < quantity], from a product that is in [Product.products]
    returns the product, lowers its quantity by exactly [n] and changes
    nothing else. *)
Theorem X1_remove_inventory_lowers (w : World) (self : ref) (p : ProductObj) (n : Z) :
  heap w !! self = Some p ->
  self ∈ products w ->
  0 < n < int_val (_quantity p) ->
  Product.remove_inventory self (vint n) w
  = (Ok (Some self),
     with_heap (<[self := set_quantity (PInt (int_val (_quantity p) - n)) p]> (heap w)) w).
Proof.
  intros Hp Hin Hn.
  rewrite (remove_inventory_positive w self p n Hp (registered_contains w self Hin)) by lia.
  apply subtract_some; [exact Hp | lia].
Qed.

Lemma X1_remove_inventory_lowers_witness :
  _quantity <$> heap (Product.remove_inventory 0%nat (vint 5) mouse_world).2 !! 0%nat
  = Some (PInt 45).
Proof.
  assert (Hin : 0%nat ∈ products mouse_world)
    by (apply list_elem_of_singleton; reflexivity).
  rewrite (X1_remove_inventory_lowers mouse_world 0%nat
             (mkProduct "Mouse" (PInt 50) (NFloat (FFin 30)) "100000" "100000"
                "Electronics" false None) 5 eq_refl Hin); [reflexivity | simpl; lia].
Defined.

(** X2 (products.py, [remove_inventory]): a value that is not an [int], an
    [int] that is zero or negative, and an [int] above the quantity held
    are all refused with [ValueError], and the state is left as it was. *)
Theorem X2_remove_inventory_refuses (w : World) (self : ref) (p : ProductObj) (v : value) :
  heap w !! self = Some p ->
  match v with
  | VNum (NInt i) => int_val i <= 0 \/ int_val (_quantity p) < int_val i
  | _ => True
  end ->
  exists msg, Product.remove_inventory self v w = (Err (ValueError msg), w).
Proof.
  intros Hp Hv.
  unfold Product.remove_inventory, Product.validate_product, mbind, M_bind, bind, gets,
    raise, lift, get_product.
  simpl. destruct (list_contains _ _); simpl; [ | eauto].
  rewrite Hp.
  destruct v as [|[i|f]|s|r]; simpl; eauto.
  destruct (Z.ltb_spec (int_val i) 0); simpl; eauto.
  destruct (Z.eqb_spec (int_val i) 0); simpl; eauto.
  destruct (Z.ltb_spec (int_val (_quantity p)) (int_val i)); simpl; eauto.
  lia.
Qed.

Lemma X2_remove_inventory_refuses_witness :
  exists msg, Product.remove_inventory 0%nat (vint 51) mouse_world
              = (Err (ValueError msg), mouse_world).
Proof.
  apply (X2_remove_inventory_refuses mouse_world 0%nat
           (mkProduct "Mouse" (PInt 50) (NFloat (FFin 30)) "100000" "100000"
              "Electronics" false None) (vint 51) eq_refl).
  right. simpl. lia.
Defined.

(** X3 (products.py, [remove_inventory], [__sub__], [delete_product]):
    taking all the units of a product returns [None] and removes from
    [Product.products] the first unit that has the product's id or its
    parent id; no instance is written, so the product keeps its quantity. *)
Theorem X3_remove_inventory_all (w : World) (self : ref) (p : ProductObj) (idx : nat) :
  heap w !! self = Some p ->
  list_index (Product.same (heap w) self) (products w) = Some idx ->
  0 < int_val (_quantity p) ->
  Product.remove_inventory self (vint (int_val (_quantity p))) w
  = (Ok None, with_products (delete idx (products w)) w)
  /\ exists e, products w !! idx = Some e /\ Product.same (heap w) self e = true.
Proof.
  intros Hp Hidx Hq. split.
  - rewrite (remove_inventory_positive w self p _ Hp (list_index_contains _ _ _ Hidx))
      by lia.
    by apply subtract_all.
  - by apply list_index_found.
Qed.

Lemma X3_remove_inventory_all_witness :
  Product.remove_inventory 1%nat (vint 5) cart_world
  = (Ok None, with_products [1%nat] cart_world).
Proof.
  destruct (X3_remove_inventory_all cart_world 1%nat
              (mkProduct "Mouse" (PInt 5) (NFloat (FFin 30)) "100001" "100000"
                 "Electronics" true None) 0%nat eq_refl eq_refl) as [H _].
  - simpl. lia.
  - exact H.
Defined.

(** X4 (products.py, [validate_product]): for a product that no unit of
    [Product.products] equals, by id or by parent id, [add_inventory] and
    [remove_inventory] raise [ValueError] whatever the amount and change
    nothing. *)
Theorem X4_unregistered_product (w : World) (self : ref) (v : value) :
  list_contains (Product.same (heap w) self) (products w) = false ->
  Product.add_inventory self v w
  = (Err (ValueError "Unable to update product inventory. Product does not exist"), w)
  /\ Product.remove_inventory self v w
  = (Err (ValueError "Unable to update product inventory. Product does not exist"), w).
Proof.
  intros Hout.
  unfold Product.add_inventory, Product.remove_inventory, Product.validate_product,
    mbind, M_bind, bind, gets.
  simpl. rewrite Hout. split; reflexivity.
Qed.

Lemma X4_unregistered_product_witness :
  let w := after (CallDeleteProduct 0%nat) mouse_world in
  Product.add_inventory 0%nat (vint 1) w
  = (Err (ValueError "Unable to update product inventory. Product does not exist"), w).
Proof.
  exact (proj1 (X4_unregistered_product (after (CallDeleteProduct 0%nat) mouse_world)
                  0%nat (vint 1) eq_refl)).
Defined.

(** X5 (products.py, [new]): in a state reached with ASCII names and
    categories, splitting [n] units, [0 < n < quantity], off a registered
    product that has a name and a category returns a new registered unit
    with the name, category and price of the source, [n] units, the next id
    and the source's id as its parent id; the source keeps the other
    units. *)
Theorem X5_split_some (w : World) (self : ref) (p : ProductObj) (n : Z) :
  reachable ascii_call w ->
  heap w !! self = Some p -> self ∈ products w ->
  _name p <> "" -> _category p <> "" ->
  0 < n < int_val (_quantity p) ->
  Product.new self (vint n) true w
  = (Ok (Some (length (heap w))),
     mkWorld
       (<[self := set_quantity (PInt (int_val (_quantity p) - n)) p]>
          (heap w ++ [mkProduct (_name p) (PInt n) (_price p) (next_id w)
                        (_product_id p) (_category p) false None])%list)
       (products w ++ [length (heap w)])
       (Some (next_counter w))
       (oheap w) (orders w) (_order_id w) (stdout w)).
Proof. intros Hw. apply new_some. eapply reachable_consistent, Hw. Qed.

Lemma X5_split_some_witness :
  (Product.new 0%nat (vint 5) true mouse_world).1 = Ok (Some 1%nat).
Proof.
  assert (Hin : 0%nat ∈ products mouse_world)
    by (apply list_elem_of_singleton; reflexivity).
  rewrite (X5_split_some mouse_world 0%nat
             (mkProduct "Mouse" (PInt 50) (NFloat (FFin 30)) "100000" "100000"
                "Electronics" false None) 5
             (mouse_world_reachable ascii_call mouse_call_ascii) eq_refl Hin);
    [reflexivity | discriminate | discriminate | simpl; lia].
Defined.

(** X6 (products.py, [new], [delete_product]): in a state reached with
    ASCII names and categories, splitting off all the units of a product
    that has a name and a category builds the new unit all the same, with
    the source's id as parent id, and removes from [Product.products] the
    first unit that has the source's id or parent id. *)
Theorem X6_split_all (w : World) (self : ref) (p : ProductObj) (idx : nat) :
  reachable ascii_call w ->
  heap w !! self = Some p ->
  list_index (Product.same (heap w) self) (products w) = Some idx ->
  _name p <> "" -> _category p <> "" ->
  0 < int_val (_quantity p) ->
  Product.new self (vint (int_val (_quantity p))) true w
  = (Ok (Some (length (heap w))),
     mkWorld
       (heap w ++ [mkProduct (_name p) (PInt (int_val (_quantity p))) (_price p)
                     (next_id w) (_product_id p) (_category p) false None])
       (delete idx (products w ++ [length (heap w)])%list)
       (Some (next_counter w))
       (oheap w) (orders w) (_order_id w) (stdout w)).
Proof. intros Hw. apply new_all. eapply reachable_consistent, Hw. Qed.

Lemma X6_split_all_witness :
  products (Product.new 0%nat (vint 50) true mouse_world).2 = [1%nat].
Proof.
  exact (f_equal (fun r => products r.2)
           (X6_split_all mouse_world 0%nat
              (mkProduct "Mouse" (PInt 50) (NFloat (FFin 30)) "100000" "100000"
                 "Electronics" false None) 0%nat
              (mouse_world_reachable ascii_call mouse_call_ascii) eq_refl eq_refl
              ltac:(discriminate) ltac:(discriminate) ltac:(simpl; lia))).
Defined.

(** X7 (products.py, [add_inventory], [__add__]): a strictly positive [int]
    given to [add_inventory] of a product that is in [Product.products] is
    added to its quantity, the product is returned, and nothing else
    changes. *)
Theorem X7_add_inventory_adds (w : World) (self : ref) (p : ProductObj) (n : Z) :
  heap w !! self = Some p -> self ∈ products w -> 0 < n ->
  Product.add_inventory self (vint n) w
  = (Ok self,
     with_heap (<[self := set_quantity (PInt (int_val (_quantity p) + n)) p]> (heap w)) w).
Proof. apply add_inventory_positive. Qed.

Lemma X7_add_inventory_adds_witness :
  _quantity <$> heap (Product.add_inventory 0%nat (vint 7) mouse_world).2 !! 0%nat
  = Some (PInt 57).
Proof.
  assert (Hin : 0%nat ∈ products mouse_world)
    by (apply list_elem_of_singleton; reflexivity).
  rewrite (X7_add_inventory_adds mouse_world 0%nat
             (mkProduct "Mouse" (PInt 50) (NFloat (FFin 30)) "100000" "100000"
                "Electronics" false None) 7 eq_refl Hin); [reflexivity | lia].
Defined.

(** X8 (products.py, [add_inventory], [__add__]): whatever is not an [int]
    (a float, a string, [None], a [Product]) makes [add_inventory] raise,
    [ValueError] or [TypeError], and leaves the state as it was. *)
Theorem X8_add_inventory_refuses_non_int (w : World) (self : ref) (v : value) :
  isinstance_int v = false ->
  exists e, Product.add_inventory self v w = (Err e, w).
Proof. apply add_inventory_not_int. Qed.

Lemma X8_add_inventory_refuses_non_int_witness :
  exists e, Product.add_inventory 0%nat (vfloat (5 # 2)) mouse_world = (Err e, mouse_world).
Proof. apply X8_add_inventory_refuses_non_int. reflexivity. Defined.

(** ** Orders and their carts *)

Lemma order_validation_unlisted {A} (function : oref -> M A) (w : World)
    (self : oref) (o : OrderObj) :
  oheap w !! self = Some o -> _checkout_status o = false -> self ∉ orders w ->
  Order.order_validation function self w = (order_does_not_exist, w).
Proof.
  intros Ho Hs Hout. unfold Order.order_validation, mbind, M_bind, bind, get_order, gets.
  rewrite Ho, Hs.
  destruct (list_contains (Nat.eqb self) (orders w)) eqn:E; [ | reflexivity].
  apply list_contains_eqb in E. contradiction.
Qed.

(** X9 (order.py, [add_product]): asking for more units than the product
    holds raises [ValueError] naming the quantity available, and nothing
    changes. *)
Theorem X9_add_product_insufficient_stock (w : World) (self : oref) (o : OrderObj)
    (product : ref) (p : ProductObj) (qty : pyint) :
  oheap w !! self = Some o -> _checkout_status o = false -> self ∈ orders w ->
  heap w !! product = Some p ->
  int_val (_quantity p) < int_val qty ->
  Order.add_product self product (VNum (NInt qty)) w
  = (Err (ValueError ("Only " +:+ str_int (_quantity p) +:+ " items available")), w).
Proof.
  intros Ho Hs Hin Hp Hq. unfold Order.add_product.
  erewrite order_validation_open by eassumption.
  unfold mbind, M_bind, bind, get_product, lift. rewrite Hp. simpl.
  destruct (Z.ltb_spec (int_val (_quantity p)) (int_val qty)); [reflexivity | lia].
Qed.

Lemma X9_add_product_insufficient_stock_witness :
  Order.add_product 0%nat 0%nat (vint 51) open_order_world
  = (Err (ValueError "Only 50 items available"), open_order_world).
Proof.
  assert (Hin : 0%nat ∈ orders open_order_world)
    by (apply list_elem_of_singleton; reflexivity).
  apply (X9_add_product_insufficient_stock open_order_world 0%nat
           (mkOrder [] 10000 today None false) 0%nat
           (mkProduct "Mouse" (PInt 50) (NFloat (FFin 30)) "100000" "100000"
              "Electronics" false None) (PInt 51) eq_refl eq_refl Hin eq_refl).
  simpl. lia.
Defined.

(** X10 (order.py, [add_product]; products.py, [new]): in a state reached
    with ASCII names and categories, adding [n] units, [0 < n < quantity],
    of a registered product with a name and a category to an open, listed
    order returns the order;
    the cart gains one line, a new registered unit of [n] units flagged
    through the [in_cart] setter, with the product's id as parent id; the
    product keeps the other units, so the two quantities add up to what the
    product held. *)
Theorem X10_add_product_reserves (w : World) (self : oref) (o : OrderObj)
    (product : ref) (p : ProductObj) (n : Z) :
  reachable ascii_call w ->
  oheap w !! self = Some o -> _checkout_status o = false -> self ∈ orders w ->
  heap w !! product = Some p -> product ∈ products w ->
  _name p <> "" -> _category p <> "" ->
  0 < n < int_val (_quantity p) ->
  Order.add_product self product (vint n) w
  = (Ok (Some self),
     mkWorld
       (<[product := set_quantity (PInt (int_val (_quantity p) - n)) p]>
          (heap w ++ [mkProduct (_name p) (PInt n) (_price p) (next_id w)
                        (_product_id p) (_category p) true None])%list)
       (products w ++ [length (heap w)])
       (Some (next_counter w))
       (<[self := set_products (_products o ++ [length (heap w)]) o]> (oheap w))
       (orders w) (_order_id w) (stdout w)).
Proof.
  intros Hw Ho Hs Hin Hp Hreg Hname Hcat Hn.
  pose proof (reachable_consistent _ _ Hw) as Hc.
  unfold Order.add_product. erewrite order_validation_open by eassumption.
  unfold mbind, M_bind, bind, get_product, lift. rewrite Hp. simpl.
  destruct (Z.ltb_spec (int_val (_quantity p)) n); [lia | ].
  unfold try_except_ValueError.
  rewrite (new_some w product p n Hc Hp Hreg Hname Hcat Hn).
  assert (Hlt : (product < length (heap w))%nat) by (eapply lookup_lt_Some, Hp).
  unfold Product.set_in_cart, Order.append_product, mbind, M_bind, bind, lift,
    update_product, get_order, update_order. simpl.
  rewrite list_lookup_insert_ne by lia.
  rewrite list_lookup_middle by reflexivity. simpl.
  rewrite Ho. simpl.
  rewrite list_insert_insert_ne by lia. rewrite insert_last, ?Ho. reflexivity.
Qed.

Lemma X10_add_product_reserves_witness :
  (Order.add_product 0%nat 0%nat (vint 5) open_order_world).1 = Ok (Some 0%nat).
Proof.
  assert (Hin : 0%nat ∈ orders open_order_world)
    by (apply list_elem_of_singleton; reflexivity).
  assert (Hreg : 0%nat ∈ products open_order_world)
    by (apply list_elem_of_singleton; reflexivity).
  assert (Hreach : reachable ascii_call open_order_world).
  { unfold open_order_world.
    apply reachable_step; [apply mouse_world_reachable, mouse_call_ascii | exact Logic.I]. }
  rewrite (X10_add_product_reserves open_order_world 0%nat
             (mkOrder [] 10000 today None false) 0%nat
             (mkProduct "Mouse" (PInt 50) (NFloat (FFin 30)) "100000" "100000"
                "Electronics" false None) 5 Hreach eq_refl eq_refl Hin eq_refl Hreg);
    [reflexivity | discriminate | discriminate | simpl; lia].
Defined.

Lemma add_product_zero (w : World) (self : oref) (o : OrderObj)
    (product : ref) (p : ProductObj) :
  oheap w !! self = Some o -> _checkout_status o = false -> self ∈ orders w ->
  heap w !! product = Some p ->
  0 <= int_val (_quantity p) ->
  Order.add_product self product (vint 0) w
  = (Ok None,
     with_stdout ((stdout w ++ [Line "New Product Error: Invalid quantity"])
                  ++ [Line "Product Addition Error: Unable to add product"]) w).
Proof.
  intros Ho Hs Hin Hp Hq. unfold Order.add_product.
  erewrite order_validation_open by eassumption.
  unfold mbind, M_bind, bind, get_product, lift. rewrite Hp. simpl.
  destruct (Z.ltb_spec (int_val (_quantity p)) 0); [lia | ].
  unfold try_except_ValueError, Product.new, try_except_ValueError,
    mbind, M_bind, bind, get_product. rewrite Hp. reflexivity.
Qed.

(** X11 (order.py, [add_product]; products.py, [new]): adding 0 units of a
    product whose quantity is not negative is reported twice, by [new] and
    by [add_product], and returns [None]; apart from the two printed lines
    nothing changes. *)
Theorem X11_add_product_zero (w : World) (self : oref) (o : OrderObj)
    (product : ref) (p : ProductObj) :
  oheap w !! self = Some o -> _checkout_status o = false -> self ∈ orders w ->
  heap w !! product = Some p ->
  0 <= int_val (_quantity p) ->
  Order.add_product self product (vint 0) w
  = (Ok None,
     with_stdout ((stdout w ++ [Line "New Product Error: Invalid quantity"])
                  ++ [Line "Product Addition Error: Unable to add product"]) w).
Proof. apply add_product_zero. Qed.

Lemma X11_add_product_zero_witness :
  (Order.add_product 0%nat 0%nat (vint 0) open_order_world).1 = Ok None.
Proof.
  assert (Hin : 0%nat ∈ orders open_order_world)
    by (apply list_elem_of_singleton; reflexivity).
  rewrite (X11_add_product_zero open_order_world 0%nat
             (mkOrder [] 10000 today None false) 0%nat
             (mkProduct "Mouse" (PInt 50) (NFloat (FFin 30)) "100000" "100000"
                "Electronics" false None) eq_refl eq_refl Hin eq_refl);
    [reflexivity | simpl; lia].
Defined.



(** X13 (order.py, [order_validation], [total_price]): on an open order
    that is not in [Order.orders], [add_product], [remove_product],
    [update_product_quantity], [clear_products], [delete] and
    [total_price] all raise [ValueError("Order does not exist")] and
    change nothing. *)
Theorem X13_unlisted_order (w : World) (self : oref) (o : OrderObj) :
  oheap w !! self = Some o -> _checkout_status o = false -> self ∉ orders w ->
  (forall product qty, Order.add_product self product qty w = (order_does_not_exist, w))
  /\ (forall product, Order.remove_product self product w = (order_does_not_exist, w))
  /\ (forall product new_qty,
        Order.update_product_quantity self product new_qty w = (order_does_not_exist, w))
  /\ Order.clear_products self w = (order_does_not_exist, w)
  /\ Order.delete self w = (order_does_not_exist, w)
  /\ Order.total_price self w = (order_does_not_exist, w).
Proof.
  intros Ho Hs Hout.
  repeat split; intros; try (eapply order_validation_unlisted; eassumption).
  unfold Order.total_price, mbind, M_bind, bind, gets.
  destruct (list_contains (Nat.eqb self) (orders w)) eqn:E; [ | reflexivity].
  apply list_contains_eqb in E. contradiction.
Qed.

Lemma X13_unlisted_order_witness :
  Order.clear_products 0%nat deleted_order_world
  = (order_does_not_exist, deleted_order_world).
Proof.
  destruct (X13_unlisted_order deleted_order_world 0%nat
              (mkOrder [1%nat] 10000 today None false) eq_refl eq_refl)
    as (_ & _ & _ & Hclear & _).
  - intros Hin. by apply elem_of_nil in Hin.
  - exact Hclear.
Defined.

(** X14 (order.py, [checkout], [total_price]): [checkout] looks at
    [Order.orders] only after it has written: on an open order with a
    filled cart that is not listed, it raises
    [ValueError("Order does not exist")] and the order is checked out
    all the same, flag and date. *)
Theorem X14_checkout_unlisted_order (w : World) (day : string) (self : oref)
    (o : OrderObj) :
  oheap w !! self = Some o -> _checkout_status o = false -> _products o <> [] ->
  self ∉ orders w ->
  Order.checkout day self w
  = (order_does_not_exist,
     with_oheap (<[self := set_checkout day o]> (oheap w)) w).
Proof.
  intros Ho Hs Hcart Hout.
  unfold Order.checkout, mbind, M_bind, bind, get_order. rewrite Ho, Hs.
  destruct (_products o) as [|r l]; [done | ]. simpl.
  unfold update_order. rewrite Ho. simpl.
  unfold Order.total_price, mbind, M_bind, bind, gets. simpl.
  destruct (list_contains (Nat.eqb self) (orders w)) eqn:E; [ | reflexivity].
  apply list_contains_eqb in E. contradiction.
Qed.

Lemma X14_checkout_unlisted_order_witness :
  _checkout_status <$> oheap (Order.checkout today 0%nat deleted_order_world).2 !! 0%nat
  = Some true.
Proof.
  rewrite (X14_checkout_unlisted_order deleted_order_world today 0%nat
             (mkOrder [1%nat] 10000 today None false) eq_refl eq_refl);
    [reflexivity | discriminate | ].
  intros Hin. by apply elem_of_nil in Hin.
Defined.

(** X15 (order.py, [__init__]): an argument of [Order(...)] that is neither
    a [Product] nor a [(Product, int)] tuple makes the constructor raise
    [TypeError], but the order was put in [Order.orders] before its
    arguments were looked at, and it stays there, open and with an order
    number drawn. *)
Theorem X15_order_with_invalid_item (w : World) (day : string) (rest : list item) :
  Order.__init__ day (ItemOther :: rest) w
  = (Err (TypeError "Initial products must be Product objects or (Product, quantity) tuples."),
     with_orders (orders w ++ [length (oheap w)])
       (with_oheap
          (oheap w ++ [mkOrder [] (match _order_id w with
                                   | None => 10000
                                   | Some c => c + 1
                                   end) day None false])
          (with_order_id (Some (match _order_id w with
                                | None => 10000
                                | Some c => c + 1
                                end)) w))).
Proof. reflexivity. Qed.

(** X16 (order.py, the [products] setter): assigning a list of products to
    [order.products] is not guarded by [order_validation]: it replaces the
    cart of any order, checked out or not, listed or not, and touches
    nothing else; a list holding something that is not a [Product] is
    refused with [TypeError] and the cart stays. *)
Theorem X16_products_setter_unguarded (w : World) (self : oref) (o : OrderObj) :
  oheap w !! self = Some o ->
  (forall l, order_products_setter self (VProduct <$> l) w
             = (Ok tt, with_oheap (<[self := set_products l o]> (oheap w)) w))
  /\ (forall l v l', (forall r, v <> VProduct r) ->
        order_products_setter self (l ++ v :: l') w
        = (Err (TypeError "Invalid product type"), w)).
Proof.
  intros Ho. split.
  - intros l. unfold order_products_setter.
    assert (Hall : forallb (fun v => match v with VProduct _ => true | _ => false end)
                     (VProduct <$> l) = true).
    { clear. induction l; [reflexivity | exact IHl]. }
    assert (Hmap : omap (fun v => match v with VProduct r => Some r | _ => None end)
                     (VProduct <$> l) = l).
    { clear. induction l as [|r l IH]; [reflexivity | ]. simpl. f_equal. exact IH. }
    rewrite Hall, Hmap. unfold update_order. rewrite Ho. reflexivity.
  - intros l v l' Hv. unfold order_products_setter.
    rewrite forallb_app. simpl.
    destruct v; try (rewrite andb_false_r; reflexivity). by destruct (Hv r).
Qed.

Lemma X16_products_setter_unguarded_witness :
  order_products_setter 0%nat [] checked_out_world
  = (Ok tt, with_oheap [mkOrder [] 10000 today (Some today) true] checked_out_world).
Proof.
  exact (proj1 (X16_products_setter_unguarded checked_out_world 0%nat
                  (mkOrder [1%nat] 10000 today (Some today) true) eq_refl) []).
Defined.

(** ** Product identifiers and equality *)

Lemma keeps_and (I J : World -> Prop) {A} (m : M A) :
  keeps I m -> (forall w, I w -> J w -> J (m w).2) -> keeps (fun w => I w /\ J w) m.
Proof. intros HI HJ w [Hi Hj]. split; [apply HI, Hi | by apply HJ]. Qed.

Lemma distinct_update (r : ref) (f : ProductObj -> ProductObj) :
  (forall p, _product_id (f p) = _product_id p) ->
  keeps ids_distinct (update_product r f).
Proof.
  intros Hid w Hw. unfold update_product.
  destruct (heap w !! r) as [p|] eqn:E; simpl; [ | exact Hw].
  assert (Hsame : forall r' p', <[r := f p]> (heap w) !! r' = Some p' ->
            exists p0, heap w !! r' = Some p0 /\ _product_id p0 = _product_id p').
  { intros r' p' [(-> & <- & _)|[_ Hp']]%list_lookup_insert_Some; eauto. }
  intros r1 r2 p1 p2 H1 H2 Heq.
  destruct (Hsame _ _ H1) as (q1 & Hq1 & E1). destruct (Hsame _ _ H2) as (q2 & Hq2 & E2).
  eapply Hw; eauto. congruence.
Qed.

Lemma distinct_assign {A} (checked : res A) (r : ref) (f : A -> ProductObj -> ProductObj) :
  (forall a p, _product_id (f a p) = _product_id p) ->
  keeps ids_distinct (a ← lift checked; update_product r (f a)).
Proof.
  intros Hid w Hw. unfold mbind, M_bind, bind, lift.
  destruct checked as [a|e]; [ | exact Hw]. by apply distinct_update.
Qed.

Lemma distinct_init (name category price quantity : value) (w : World) :
  consistent w -> ids_distinct w ->
  ids_distinct (Product.__init__ name category price quantity w).2.
Proof.
  intros Hc Hw.
  unfold Product.__init__, mbind, M_bind, bind, lift, Product.generate_id,
    Product.register.
  destruct (py_title name) as [titled|]; simpl; [ | exact Hw].
  destruct (Product.name_setter (VStr titled)) as [n|]; simpl; [ | exact Hw].
  destruct (Product.quantity_setter quantity) as [q|]; simpl; [ | exact Hw].
  destruct (Product.price_setter price) as [p|]; simpl; [ | exact Hw].
  destruct (Product.category_setter category) as [cat|]; simpl; [ | exact Hw].
  intros r1 r2 p1 p2 [[_ H1]|[-> <-]]%lookup_snoc_Some [[_ H2]|[-> <-]]%lookup_snoc_Some;
    simpl; intros Heq.
  - eapply Hw; eauto.
  - exfalso. eapply (next_id_fresh w r1 p1); eauto.
  - exfalso. eapply (next_id_fresh w r2 p2); eauto.
  - reflexivity.
Qed.

Lemma distinct_frame {A} (m : M A) :
  (forall w, heap (m w).2 = heap w) ->
  forall w, consistent w -> ids_distinct w -> ids_distinct (m w).2.
Proof.
  intros Hm w _ Hw r1 r2 p1 p2. rewrite Hm. apply Hw.
Qed.

#[global] Instance distinct_stable :
  Stable (fun w => consistent w /\ ids_distinct w) (fun _ => True).
Proof.
  split.
  - intros; exact Logic.I.
  - intros x. apply keeps_and; [apply stable_print | by apply distinct_frame].
  - intros x f. apply keeps_and; [apply stable_update_order | ].
    apply distinct_frame. intros w. unfold update_order. by destruct (oheap w !! x).
  - apply keeps_and; [apply stable_order_id | by apply distinct_frame].
  - intros x. apply keeps_and; [apply stable_order_register | by apply distinct_frame].
  - intros idx. apply keeps_and; [apply stable_pop_order | by apply distinct_frame].
  - intros idx. apply keeps_and; [apply stable_pop_product | by apply distinct_frame].
  - intros. apply keeps_and; [by apply stable_set_parent_id | ].
    intros w _. by apply distinct_update.
  - intros. apply keeps_and; [apply stable_set_in_cart | ].
    intros w _. by apply distinct_assign.
  - intros. apply keeps_and; [apply stable_set_name | ].
    intros w _. by apply distinct_assign.
  - intros. apply keeps_and; [apply stable_set_category | ].
    intros w _. by apply distinct_assign.
  - intros. apply keeps_and; [apply stable_set_price | ].
    intros w _. by apply distinct_assign.
  - intros. apply keeps_and; [by apply stable_set_quantity | ].
    intros w _. by apply distinct_assign.
  - intros. apply keeps_and; [by apply stable_init | ].
    intros w. apply distinct_init.
  - intros. apply keeps_and; [by apply stable_add | ].
    intros w _. revert w. change (keeps ids_distinct (Product.__add__ r v)).
    unfold Product.__add__. repeat keeps_step; try by apply distinct_update.
    by apply distinct_assign.
  - intros. apply keeps_and; [apply stable_subtract | ].
    intros w _. revert w. change (keeps ids_distinct (Product.subtract r n)).
    unfold Product.subtract. repeat keeps_step; try by apply distinct_assign.
    apply keeps_delete_product_from. intros idx w Hw. exact Hw.
  - apply keeps_and; [apply stable_generate_id | by apply distinct_frame].
Qed.

Lemma reachable_distinct (w : World) : reachable any_call w -> ids_distinct w.
Proof.
  intros Hw.
  apply (reachable_keeps (fun w => consistent w /\ ids_distinct w) (fun _ => True)
           any_call w); [ | | exact Hw].
  - intros c _. apply any_quantities.
  - split; [apply consistent_init_world | ].
    intros r1 r2 p1 p2 H1. simpl in H1. by rewrite lookup_nil in H1.
Qed.

(** X17 (products.py, [generate_id], [__init__]): in every state a client
    can reach, no two [Product] instances bear the same product id,
    whether they were constructed directly or split off by [new]. *)
Theorem X17_product_ids_unique (w : World) (r1 r2 : ref) (p1 p2 : ProductObj) :
  reachable any_call w ->
  heap w !! r1 = Some p1 -> heap w !! r2 = Some p2 ->
  _product_id p1 = _product_id p2 -> r1 = r2.
Proof. intros Hw. by apply reachable_distinct. Qed.

Lemma X17_product_ids_unique_witness : 1%nat = 1%nat.
Proof.
  exact (X17_product_ids_unique cart_world 1%nat 1%nat
           (mkProduct "Mouse" (PInt 5) (NFloat (FFin 30)) "100001" "100000"
              "Electronics" true None)
           (mkProduct "Mouse" (PInt 5) (NFloat (FFin 30)) "100001" "100000"
              "Electronics" true None)
           (reachable_cart_world any_call Logic.I Logic.I Logic.I)
           eq_refl eq_refl eq_refl).
Defined.

(** X18 (products.py, [__eq__], [__ne__]): on the instances of a reachable
    state, two products are equal exactly when they are the same instance
    or have the same parent id, and [!=] is the negation of [==] (the two
    methods test different things, but ids are unique). *)
Theorem X18_equality_is_lineage (w : World) (r1 r2 : ref) (p1 p2 : ProductObj) :
  reachable any_call w ->
  heap w !! r1 = Some p1 -> heap w !! r2 = Some p2 ->
  (Product.__eq__ p1 p2 = true <-> r1 = r2 \/ _parent_id p1 = _parent_id p2)
  /\ Product.__ne__ p1 p2 = negb (Product.__eq__ p1 p2).
Proof.
  intros Hw H1 H2. pose proof (reachable_distinct w Hw r1 r2 p1 p2 H1 H2) as Hd.
  unfold Product.__eq__, Product.__ne__.
  destruct (String.eqb_spec (_product_id p1) (_product_id p2)) as [Hid|Hid];
    destruct (String.eqb_spec (_parent_id p1) (_parent_id p2)) as [Hpar|Hpar]; simpl.
  - split; [split; auto | reflexivity].
  - specialize (Hd Hid). subst r2. rewrite H1 in H2. injection H2 as <-. done.
  - split; [split; auto | reflexivity].
  - split; [ | reflexivity]. split; [discriminate | ].
    intros [-> | Hp]; [ | done]. rewrite H1 in H2. injection H2 as <-. done.
Qed.

Lemma X18_equality_is_lineage_witness :
  let mouse := mkProduct "Mouse" (PInt 45) (NFloat (FFin 30)) "100000" "100000"
                 "Electronics" false None in
  let line := mkProduct "Mouse" (PInt 5) (NFloat (FFin 30)) "100001" "100000"
                "Electronics" true None in
  Product.__ne__ mouse line = negb (Product.__eq__ mouse line).
Proof.
  exact (proj2 (X18_equality_is_lineage cart_world 0%nat 1%nat _ _
                  (reachable_cart_world any_call Logic.I Logic.I Logic.I)
                  eq_refl eq_refl)).
Defined.

(** ** What the methods of [Product] leave alone *)

Section ProductsFrame.
Context (I : World -> Prop).
Hypothesis orders_only :
  forall w w', oheap w' = oheap w -> orders w' = orders w -> _order_id w' = _order_id w ->
               I w -> I w'.

Lemma frame_print (o : output) : keeps I (print o).
Proof. intros w Hw. eapply orders_only, Hw; reflexivity. Qed.

Lemma frame_update_product (r : ref) (f : ProductObj -> ProductObj) :
  keeps I (update_product r f).
Proof.
  intros w Hw. unfold update_product.
  destruct (heap w !! r); [eapply orders_only, Hw; reflexivity | exact Hw].
Qed.

Lemma frame_register (p : ProductObj) : keeps I (Product.register p).
Proof. intros w Hw. eapply orders_only, Hw; reflexivity. Qed.

Lemma frame_generate_id : keeps I Product.generate_id.
Proof. intros w Hw. eapply orders_only, Hw; reflexivity. Qed.

Lemma frame_pop_product (idx : nat) : keeps I (Product.pop_product idx).
Proof. intros w Hw. eapply orders_only, Hw; reflexivity. Qed.

Local Hint Resolve frame_print frame_update_product frame_register frame_generate_id
  frame_pop_product : keeps.

Ltac frame_auto := repeat keeps_step; eauto with keeps.

Lemma frame_init (n c p q : value) : keeps I (Product.__init__ n c p q).
Proof. unfold Product.__init__. frame_auto. Qed.

Lemma frame_set_in_cart (r : ref) (v : value) : keeps I (Product.set_in_cart r v).
Proof. unfold Product.set_in_cart. frame_auto. Qed.

Lemma frame_set_name (r : ref) (v : value) : keeps I (Product.set_name_checked r v).
Proof. unfold Product.set_name_checked. frame_auto. Qed.

Lemma frame_set_category (r : ref) (v : value) :
  keeps I (Product.set_category_checked r v).
Proof. unfold Product.set_category_checked. frame_auto. Qed.

Lemma frame_set_price (r : ref) (v : value) : keeps I (Product.set_price_checked r v).
Proof. unfold Product.set_price_checked. frame_auto. Qed.

Lemma frame_set_quantity (r : ref) (v : value) :
  keeps I (Product.set_quantity_checked r v).
Proof. unfold Product.set_quantity_checked. frame_auto. Qed.

Lemma frame_delete_product (prod : ref) : keeps I (Product.delete_product prod).
Proof. apply keeps_delete_product_from, frame_pop_product. Qed.

Lemma frame_add (self : ref) (other : value) : keeps I (Product.__add__ self other).
Proof. unfold Product.__add__. frame_auto; apply frame_set_quantity. Qed.

Lemma frame_subtract (self : ref) (n : Z) : keeps I (Product.subtract self n).
Proof.
  unfold Product.subtract. frame_auto;
    [apply frame_delete_product | apply frame_set_quantity].
Qed.

Lemma frame_sub (self : ref) (other : value) : keeps I (Product.__sub__ self other).
Proof. unfold Product.__sub__. frame_auto; apply frame_subtract. Qed.

Lemma frame_add_inventory (self : ref) (v : value) :
  keeps I (Product.add_inventory self v).
Proof.
  unfold Product.add_inventory, Product.validate_product. frame_auto. apply frame_add.
Qed.

Lemma frame_remove_inventory (self : ref) (v : value) :
  keeps I (Product.remove_inventory self v).
Proof.
  unfold Product.remove_inventory, Product.validate_product. frame_auto.
  apply frame_sub.
Qed.

Lemma frame_new (self : ref) (qty : value) (update_original : bool) :
  keeps I (Product.new self qty update_original).
Proof.
  unfold Product.new. frame_auto; [apply frame_init | apply frame_remove_inventory].
Qed.

Lemma frame_product_table : keeps I Customer.product_table.
Proof. unfold Customer.product_table. frame_auto. Qed.

Lemma frame_product_call (c : call) : on_products c = true -> keeps I (exec c).
Proof.
  destruct c; simpl; try discriminate; intros _; repeat keeps_step;
    eauto using frame_init, frame_set_name, frame_set_category, frame_set_price,
      frame_set_quantity, frame_set_in_cart, frame_new, frame_add_inventory,
      frame_remove_inventory, frame_add, frame_sub, frame_delete_product,
      frame_product_table, frame_generate_id.
Qed.
End ProductsFrame.

(** X19 (products.py, every method; customer.py, [product_table]): no
    constructor, method or property assignment of [Product], and no listing
    of the products, ever writes an order, [Order.orders] or the order
    counter. *)
Theorem X19_products_leave_orders_alone (w : World) (c : call) :
  on_products c = true -> orders_state (after c w) = orders_state w.
Proof.
  intros Hc.
  apply (frame_product_call (fun w' => orders_state w' = orders_state w)); auto.
  unfold orders_state. intros w1 w2 -> -> ->. auto.
Qed.

Lemma X19_products_leave_orders_alone_witness :
  orders_state (after (CallNew 1%nat (vint 5) true) cart_world) = orders_state cart_world.
Proof. apply X19_products_leave_orders_alone. reflexivity. Defined.

(** ** Invariants of the orders *)

Lemma order_init_steps (day : string) (items : list item) (w : World) :
  Order.__init__ day items w
  = ((i ← Order.order_id; Order.register (mkOrder [] i day None false))
     ≫= fun self => Order.add_items self items;; mret self) w.
Proof. reflexivity. Qed.

Section OrderInvariant.
Context (I : World -> Prop).
Hypothesis orders_only :
  forall w w', oheap w' = oheap w -> orders w' = orders w -> _order_id w' = _order_id w ->
               I w -> I w'.
Hypothesis open_cart_kept :
  forall self l w, I w -> is_open self w -> I (update_order self (set_products l) w).2.
Hypothesis new_order_kept :
  forall day, keeps I (i ← Order.order_id; Order.register (mkOrder [] i day None false)).
Hypothesis pop_order_kept : forall idx, keeps I (Order.pop_order idx).
Hypothesis checkout_kept : forall day self, keeps I (Order.checkout day self).
Hypothesis order_id_kept : keeps I Order.order_id.

Lemma while_open_frame (self : oref) (w w' : World) :
  oheap w' = oheap w -> orders w' = orders w -> _order_id w' = _order_id w ->
  while_open I self w -> while_open I self w'.
Proof.
  intros Hh Ho Hc [Hi Hopen]. split; [by eapply orders_only | ].
  unfold is_open. by rewrite Hh.
Qed.

Lemma while_open_cart (self : oref) (l : list ref) :
  keeps (while_open I self) (update_order self (set_products l)).
Proof.
  intros w [Hi Hopen]. split; [by apply open_cart_kept | ].
  destruct Hopen as (x & Hx & Hs). unfold update_order. rewrite Hx. simpl.
  exists (set_products l x). split; [ | exact Hs].
  apply list_lookup_insert_eq. eapply lookup_lt_Some, Hx.
Qed.

Lemma while_open_pop (self : oref) (idx : nat) :
  keeps (while_open I self) (Order.pop_order idx).
Proof. intros w [Hi Hopen]. split; [by apply pop_order_kept | exact Hopen]. Qed.

Lemma kept_guarded {A} (function : oref -> M A) (self : oref) :
  keeps (while_open I self) (function self) ->
  keeps I (Order.order_validation function self).
Proof.
  intros Hf w Hw. unfold Order.order_validation, mbind, M_bind, bind, get_order, gets.
  destruct (oheap w !! self) as [o|] eqn:Ho; [ | exact Hw].
  destruct (_checkout_status o) eqn:Hs; [exact Hw | ]. simpl.
  destruct (negb (list_contains (Nat.eqb self) (orders w))); [exact Hw | ].
  apply Hf. split; [exact Hw | ]. exists o. done.
Qed.

Lemma open_print (self : oref) (o : output) : keeps (while_open I self) (print o).
Proof. apply frame_print, while_open_frame. Qed.

Lemma open_set_in_cart (self : oref) (r : ref) (v : value) :
  keeps (while_open I self) (Product.set_in_cart r v).
Proof. apply frame_set_in_cart, while_open_frame. Qed.

Lemma open_set_quantity (self : oref) (r : ref) (v : value) :
  keeps (while_open I self) (Product.set_quantity_checked r v).
Proof. apply frame_set_quantity, while_open_frame. Qed.

Lemma open_new (self : oref) (r : ref) (qty : value) (update_original : bool) :
  keeps (while_open I self) (Product.new r qty update_original).
Proof. apply frame_new, while_open_frame. Qed.

Lemma open_add_inventory (self : oref) (r : ref) (v : value) :
  keeps (while_open I self) (Product.add_inventory r v).
Proof. apply frame_add_inventory, while_open_frame. Qed.

Lemma open_remove_inventory (self : oref) (r : ref) (v : value) :
  keeps (while_open I self) (Product.remove_inventory r v).
Proof. apply frame_remove_inventory, while_open_frame. Qed.

Ltac open_auto :=
  repeat keeps_step;
  eauto using while_open_cart, while_open_pop, open_print, open_set_in_cart,
    open_set_quantity, open_new, open_add_inventory, open_remove_inventory.

Lemma kept_add_product (self : oref) (product : ref) (qty : value) :
  keeps I (Order.add_product self product qty).
Proof.
  unfold Order.add_product. apply kept_guarded.
  unfold Order.append_product. open_auto.
Qed.

Lemma kept_remove_product (self : oref) (product : ref) :
  keeps I (Order.remove_product self product).
Proof. unfold Order.remove_product. apply kept_guarded. open_auto. Qed.

Lemma kept_update_product_quantity (self : oref) (product : ref) (new_qty : value) :
  keeps I (Order.update_product_quantity self product new_qty).
Proof. unfold Order.update_product_quantity. apply kept_guarded. open_auto. Qed.

Lemma kept_clear_products (self : oref) : keeps I (Order.clear_products self).
Proof. unfold Order.clear_products. apply kept_guarded. open_auto. Qed.

Lemma kept_delete (self : oref) : keeps I (Order.delete self).
Proof. unfold Order.delete. apply kept_guarded. open_auto. Qed.

Lemma kept_add_items (self : oref) (items : list item) :
  keeps I (Order.add_items self items).
Proof.
  induction items as [|[p qty|p|] items IH]; simpl.
  - apply keeps_ret.
  - keeps_step; [apply kept_add_product | exact IH].
  - keeps_step; [apply kept_add_product | exact IH].
  - apply keeps_raise.
Qed.

Lemma kept_order_init (day : string) (items : list item) :
  keeps I (Order.__init__ day items).
Proof.
  intros w Hw. rewrite order_init_steps. revert w Hw.
  apply keeps_bind; [apply new_order_kept | ]. intros self.
  repeat keeps_step. apply kept_add_items.
Qed.

(** Every call maintains such an invariant of the orders. *)
Lemma kept_exec (c : call) : keeps I (exec c).
Proof.
  destruct (on_products c) eqn:Hc; [by apply frame_product_call | ].
  destruct c; try discriminate; simpl; repeat keeps_step;
    auto using kept_order_init, kept_add_product, kept_remove_product,
      kept_update_product_quantity, kept_clear_products, kept_delete,
      order_id_kept.
Qed.

Lemma kept_after_all (cs : list call) (w : World) : I w -> I (after_all cs w).
Proof.
  revert w. induction cs as [|c cs IH]; intros w Hw; [exact Hw | ].
  simpl. apply IH. by apply kept_exec.
Qed.

Lemma kept_reachable (allowed : call -> Prop) (w : World) :
  I init_world -> reachable allowed w -> I w.
Proof.
  intros Hinit. induction 1 as [|w c _ IH _]; [exact Hinit | by apply kept_exec].
Qed.
End OrderInvariant.

Lemma checkout_outcome (day : string) (self : oref) (w : World) :
  (Order.checkout day self w).2 = w
  \/ (exists l, (Order.checkout day self w).2 = with_stdout l w)
  \/ (exists o l, oheap w !! self = Some o /\ _checkout_status o = false
                  /\ _products o <> []
                  /\ (Order.checkout day self w).2
                     = with_stdout l
                         (with_oheap (<[self := set_checkout day o]> (oheap w)) w)).
Proof.
  unfold Order.checkout, mbind, M_bind, bind, get_order.
  destruct (oheap w !! self) as [o|] eqn:Ho; [ | by left].
  destruct (_checkout_status o) eqn:Hs; [by left | ].
  destruct (_products o) as [|r l] eqn:Hl; simpl.
  - right. left. eexists. reflexivity.
  - right. right. unfold update_order. rewrite Ho. simpl.
    unfold Order.total_price, mbind, M_bind, bind, gets. simpl.
    destruct (negb (list_contains (Nat.eqb self) (orders w))); simpl.
    + exists o, (stdout w). rewrite Hl. done.
    + exists o, (stdout w ++ [CheckoutReceipt (_id o)])%list. rewrite Hl. done.
Qed.

(** A property of the orders survives a checkout if it does not depend on
    what is printed and survives setting the flag and the date of an open
    order with a filled cart. *)
Lemma checkout_kept_from (I : World -> Prop) :
  (forall w w', oheap w' = oheap w -> orders w' = orders w ->
                _order_id w' = _order_id w -> I w -> I w') ->
  (forall day self o w, I w -> oheap w !! self = Some o -> _checkout_status o = false ->
     _products o <> [] ->
     I (with_oheap (<[self := set_checkout day o]> (oheap w)) w)) ->
  forall day self, keeps I (Order.checkout day self).
Proof.
  intros Hframe Hset day self w Hw.
  destruct (checkout_outcome day self w) as [-> | [[l ->] | (o & l & Ho & Hs & Hc & ->)]].
  - exact Hw.
  - eapply Hframe, Hw; reflexivity.
  - eapply Hframe; [ | | | eapply (Hset day self o w); eassumption]; reflexivity.
Qed.

Lemma new_order_outcome (day : string) (w : World) :
  ((i ← Order.order_id; Order.register (mkOrder [] i day None false)) w).2
  = with_orders (orders w ++ [length (oheap w)])
      (with_oheap
         (oheap w ++ [mkOrder [] (match _order_id w with
                                  | None => 10000
                                  | Some c => c + 1
                                  end) day None false])
         (with_order_id (Some (match _order_id w with
                               | None => 10000
                               | Some c => c + 1
                               end)) w)).
Proof. reflexivity. Qed.

(** *** A checked-out order is never written again *)

Ltac world_fields :=
  cbn [snd oheap orders _order_id with_oheap with_orders with_order_id with_stdout].




(** *** Dates, numbers and carts of the orders *)

Lemma dates_exec (c : call) : keeps dates_match_flags (exec c).
Proof.
  assert (Hframe : forall w w', oheap w' = oheap w -> orders w' = orders w ->
            _order_id w' = _order_id w -> dates_match_flags w -> dates_match_flags w').
  { unfold dates_match_flags. intros w w' -> _ _. auto. }
  apply kept_exec.
  - exact Hframe.
  - intros self l w Hw (y & Hy & Hs). unfold update_order. rewrite Hy.
    unfold dates_match_flags. world_fields.
    intros o' x' [(-> & <- & _)|[_ Hx']]%list_lookup_insert_Some.
    + apply (Hw _ _ Hy).
    + apply (Hw _ _ Hx').
  - intros day w Hw. rewrite new_order_outcome. unfold dates_match_flags. world_fields.
    intros o' x' [[_ Hx']|[_ <-]]%lookup_snoc_Some; [apply (Hw _ _ Hx') | ].
    simpl. split; [discriminate | intros [d Hd]; discriminate].
  - intros idx w Hw. exact Hw.
  - apply checkout_kept_from; [exact Hframe | ].
    intros day self y w Hw Hy Hs _. unfold dates_match_flags. world_fields.
    intros o' x' [(-> & <- & _)|[_ Hx']]%list_lookup_insert_Some.
    + simpl. split; eauto.
    + apply (Hw _ _ Hx').
  - intros w Hw. exact Hw.
Qed.

Lemma reachable_checked_out_world (allowed : call -> Prop) :
  (forall c, allowed c) -> reachable allowed checked_out_world.
Proof.
  intros Hall. unfold checked_out_world.
  apply reachable_step; [apply reachable_cart_world | ]; apply Hall.
Qed.

(** X21 (order.py, [__init__], [checkout]): in every reachable state an
    order has a checkout date exactly when its checkout flag is set. *)
Theorem X21_checkout_date_iff_flag (w : World) (o : oref) (x : OrderObj) :
  reachable any_call w ->
  oheap w !! o = Some x ->
  (_checkout_status x = true <-> is_Some (_checkout_date x)).
Proof.
  intros Hw. revert o x. change (dates_match_flags w).
  induction Hw as [|w c _ IH _]; [ | by apply dates_exec].
  intros o x Hx. simpl in Hx. by rewrite lookup_nil in Hx.
Qed.

Lemma X21_checkout_date_iff_flag_witness :
  true = true <-> is_Some (Some today).
Proof.
  exact (X21_checkout_date_iff_flag checked_out_world 0%nat
           (mkOrder [1%nat] 10000 today (Some today) true)
           (reachable_checked_out_world any_call (fun _ => Logic.I)) eq_refl).
Defined.




Lemma filled_exec (c : call) : keeps checked_out_carts_filled (exec c).
Proof.
  assert (Hframe : forall w w', oheap w' = oheap w -> orders w' = orders w ->
            _order_id w' = _order_id w ->
            checked_out_carts_filled w -> checked_out_carts_filled w').
  { unfold checked_out_carts_filled. intros w w' -> _ _. auto. }
  apply kept_exec.
  - exact Hframe.
  - intros self l w Hw (y & Hy & Hs). unfold update_order. rewrite Hy.
    unfold checked_out_carts_filled. world_fields.
    intros o' x' [(-> & <- & _)|[_ Hx']]%list_lookup_insert_Some.
    + simpl. congruence.
    + by apply (Hw o').
  - intros day w Hw. rewrite new_order_outcome. unfold checked_out_carts_filled.
    world_fields.
    intros o' x' [[_ Hx']|[_ <-]]%lookup_snoc_Some; [by apply (Hw o') | discriminate].
  - intros idx w Hw. exact Hw.
  - apply checkout_kept_from; [exact Hframe | ].
    intros day self y w Hw Hy Hs Hcart. unfold checked_out_carts_filled. world_fields.
    intros o' x' [(-> & <- & _)|[_ Hx']]%list_lookup_insert_Some.
    + intros _. exact Hcart.
    + by apply (Hw o').
  - intros w Hw. exact Hw.
Qed.

(** X23 (order.py, [checkout] and the guarded methods): in every state
    reached by constructor calls, method calls and [Product] property
    assignments, a checked-out order has at least one line in its cart:
    [checkout] refuses an empty cart and nothing empties the cart
    afterwards. *)
Theorem X23_checked_out_cart_not_empty (w : World) (o : oref) (x : OrderObj) :
  reachable any_call w ->
  oheap w !! o = Some x ->
  _checkout_status x = true ->
  _products x <> [].
Proof.
  intros Hw. revert o x. change (checked_out_carts_filled w).
  induction Hw as [|w c _ IH _]; [ | by apply filled_exec].
  intros o x Hx. simpl in Hx. by rewrite lookup_nil in Hx.
Qed.

Lemma X23_checked_out_cart_not_empty_witness : [1%nat] <> @nil ref.
Proof.
  exact (X23_checked_out_cart_not_empty checked_out_world 0%nat
           (mkOrder [1%nat] 10000 today (Some today) true)
           (reachable_checked_out_world any_call (fun _ => Logic.I)) eq_refl eq_refl).
Defined.

(** ** The list of the orders *)

Lemma listed_exec (c : call) : keeps orders_listed_once (exec c).
Proof.
  assert (Hframe : forall w w', oheap w' = oheap w -> orders w' = orders w ->
            _order_id w' = _order_id w -> orders_listed_once w -> orders_listed_once w').
  { unfold orders_listed_once. intros w w' -> -> _. auto. }
  assert (Hupd : forall self (y : OrderObj) w, orders_listed_once w ->
            orders_listed_once (with_oheap (<[self := y]> (oheap w)) w)).
  { intros self y w [Hnd Hin]. split; world_fields; [exact Hnd | ].
    intros o Ho. apply lookup_lt_is_Some. rewrite length_insert.
    apply lookup_lt_is_Some. by apply Hin. }
  apply kept_exec.
  - exact Hframe.
  - intros self l w Hw (y & Hy & Hs). unfold update_order. rewrite Hy. world_fields.
    by apply Hupd.
  - intros day w [Hnd Hin]. rewrite new_order_outcome. split; world_fields.
    + apply NoDup_app. split; [exact Hnd | ]. split; [ | apply NoDup_singleton].
      intros o Ho ->%list_elem_of_singleton. apply Hin, lookup_lt_is_Some in Ho. lia.
    + intros o [Ho | ->%list_elem_of_singleton]%elem_of_app.
      * apply lookup_lt_is_Some. rewrite length_app.
        apply Hin, lookup_lt_is_Some in Ho. lia.
      * apply lookup_lt_is_Some. rewrite length_app. simpl. lia.
  - intros idx w [Hnd Hin]. split; world_fields.
    + eapply sublist_NoDup; [exact Hnd | apply sublist_delete].
    + intros o Ho. apply Hin. eapply elem_of_sublist; [exact Ho | apply sublist_delete].
  - apply checkout_kept_from; [exact Hframe | ].
    intros day self y w Hw Hy Hs _. by apply Hupd.
  - intros w Hw. exact Hw.
Qed.

Lemma reachable_listed_once (w : World) : reachable any_call w -> orders_listed_once w.
Proof.
  intros Hw. induction Hw as [|w c _ IH _]; [ | by apply listed_exec].
  split; [apply NoDup_nil_2 | ]. intros o Ho. simpl in Ho. by apply elem_of_nil in Ho.
Qed.

(** X24 (order.py, [__init__], [delete]): in every reachable state
    [Order.orders] lists no order twice. *)
Theorem X24_orders_listed_once (w : World) :
  reachable any_call w -> NoDup (orders w).
Proof. intros Hw. apply reachable_listed_once, Hw. Qed.

Lemma X24_orders_listed_once_witness : NoDup [0%nat; 1%nat].
Proof.
  apply (X24_orders_listed_once (after (NewOrder today []) cart_world)).
  apply reachable_step; [ | exact Logic.I].
  apply reachable_cart_world; exact Logic.I.
Defined.

Lemma delete_outcome (w : World) (self : oref) (x : OrderObj) :
  oheap w !! self = Some x -> _checkout_status x = false -> self ∈ orders w ->
  exists idx, orders w !! idx = Some self
              /\ Order.delete self w = (Ok tt, with_orders (delete idx (orders w)) w).
Proof.
  intros Hx Hs Hin. unfold Order.delete.
  erewrite order_validation_open by eassumption.
  unfold mbind, M_bind, bind, gets.
  destruct (list_index (Nat.eqb self) (orders w)) as [idx|] eqn:E.
  - destruct (list_index_found _ _ _ E) as (e & He & ->%Nat.eqb_eq).
    exists idx. done.
  - apply list_contains_eqb in Hin.
    destruct (list_contains (Nat.eqb self) (orders w)) eqn:C; [ | discriminate].
    exfalso. clear -E C. unfold list_contains in C.
    induction (orders w) as [|e l IH]; [discriminate | ]. simpl in *.
    destruct (Nat.eqb self e); [discriminate | ].
    destruct (list_index (Nat.eqb self) l); [discriminate | ]. by apply IH.
Qed.

Lemma unlisted_exec (self : oref) (c : call) :
  keeps (fun w => (self ∉ orders w) /\ (self < length (oheap w))%nat) (exec c).
Proof.
  apply kept_exec.
  - intros w w' -> -> _. auto.
  - intros o l w [Hout Hlt] (y & Hy & Hs). unfold update_order. rewrite Hy. world_fields.
    by rewrite length_insert.
  - intros day w [Hout Hlt]. rewrite new_order_outcome. world_fields. split.
    + intros [Hin | ->%list_elem_of_singleton]%elem_of_app; [by apply Hout | lia].
    + rewrite length_app. lia.
  - intros idx w [Hout Hlt]. split; world_fields; [ | exact Hlt].
    intros Hin. apply Hout. eapply elem_of_sublist; [exact Hin | apply sublist_delete].
  - apply checkout_kept_from.
    + intros w w' -> -> _. auto.
    + intros day o y w [Hout Hlt] Hy Hs _. world_fields. by rewrite length_insert.
  - intros w Hw. exact Hw.
Qed.

(** X25 (order.py, [delete], [__init__]): in a reachable state [delete] on
    an open, listed order returns, and the order is not in [Order.orders]
    afterwards, whatever is called next: nothing lists an order again.
    (Its guarded methods then raise "Order does not exist", see X13.) *)
Theorem X25_deleted_order_stays_deleted (w : World) (self : oref) (x : OrderObj)
    (cs : list call) :
  reachable any_call w ->
  oheap w !! self = Some x -> _checkout_status x = false -> self ∈ orders w ->
  (Order.delete self w).1 = Ok tt
  /\ self ∉ orders (after_all cs (after (CallDelete self) w)).
Proof.
  intros Hw Hx Hs Hin.
  destruct (delete_outcome w self x Hx Hs Hin) as (idx & Hidx & Hdel).
  split; [by rewrite Hdel | ].
  assert (Hgone : (self ∉ orders (after (CallDelete self) w))
                  /\ (self < length (oheap (after (CallDelete self) w)))%nat).
  { unfold after. simpl. rewrite Hdel. world_fields.
    split; [ | eapply lookup_lt_Some, Hx].
    destruct (reachable_listed_once w Hw) as [Hnd _].
    rewrite <- (take_drop_middle _ _ _ Hidx) in Hnd.
    apply NoDup_app in Hnd as (_ & Htake & [Hdrop _]%NoDup_cons).
    rewrite delete_take_drop.
    intros [Hl | Hr]%elem_of_app; [ | contradiction].
    apply (Htake self Hl). left. }
  revert Hgone. generalize (after (CallDelete self) w). clear.
  induction cs as [|c cs IH]; intros w Hgone; [apply Hgone | ].
  simpl. apply IH. by apply (unlisted_exec self c w).
Qed.

Lemma X25_deleted_order_stays_deleted_witness :
  (Order.delete 0%nat cart_world).1 = Ok tt
  /\ 0%nat ∉ orders (after_all [NewOrder today []; CallCheckout today 0%nat]
                       (after (CallDelete 0%nat) cart_world)).
Proof.
  apply (X25_deleted_order_stays_deleted cart_world 0%nat
           (mkOrder [1%nat] 10000 today None false)).
  - apply reachable_cart_world; exact Logic.I.
  - reflexivity.
  - reflexivity.
  - apply list_elem_of_singleton. reflexivity.
Defined.

(** ** customer.py: the customer and the cart *)

(** X26 (customer.py, [add_to_cart]; order.py, [add_product]):
    [add_to_cart] does not look at what [add_product] returned: asked for 0
    units of a product whose quantity is not negative, it prints the two
    error lines of [add_product] and then
    "0 x <name> added to cart successfully!", while the cart and the stock
    are what they were. *)
Theorem X26_add_to_cart_reports_success (w : World) (self : CustomerObj.t)
    (o : OrderObj) (product : ref) (p : ProductObj) :
  oheap w !! CustomerObj._order self = Some o -> _checkout_status o = false ->
  CustomerObj._order self ∈ orders w ->
  heap w !! product = Some p ->
  0 <= int_val (_quantity p) ->
  CustomerCart.add_to_cart self product (PInt 0) w
  = (Ok tt,
     with_stdout (stdout w ++ [Line "New Product Error: Invalid quantity";
                               Line "Product Addition Error: Unable to add product";
                               Line ("0 x " +:+ _name p
                                     +:+ " added to cart successfully!")]) w).
Proof.
  intros Ho Hs Hin Hp Hq. unfold CustomerCart.add_to_cart.
  unfold mbind at 1, M_bind at 1, bind at 1.
  change (VNum (NInt (PInt 0))) with (vint 0).
  rewrite (add_product_zero w _ o product p Ho Hs Hin Hp Hq).
  unfold mbind, M_bind, bind, get_product, print. simpl. rewrite Hp.
  unfold with_stdout. simpl. rewrite <- !app_assoc. reflexivity.
Qed.

Lemma X26_add_to_cart_reports_success_witness :
  stdout (CustomerCart.add_to_cart (CustomerObj.mk 0%nat "Toby") 0%nat (PInt 0)
            open_order_world).2
  = [Line "New Product Error: Invalid quantity";
     Line "Product Addition Error: Unable to add product";
     Line "0 x Mouse added to cart successfully!"].
Proof.
  assert (Hin : 0%nat ∈ orders open_order_world)
    by (apply list_elem_of_singleton; reflexivity).
  rewrite (X26_add_to_cart_reports_success open_order_world (CustomerObj.mk 0%nat "Toby")
             (mkOrder [] 10000 today None false) 0%nat
             (mkProduct "Mouse" (PInt 50) (NFloat (FFin 30)) "100000" "100000"
                "Electronics" false None) eq_refl eq_refl Hin eq_refl);
    [reflexivity | simpl; lia].
Defined.

Lemma order_init_empty (day : string) (w : World) :
  Order.__init__ day [] w = (Ok (length (oheap w)), with_new_order day w).
Proof. reflexivity. Qed.

(** X27 (customer.py, [__init__], [name] setter): [Customer(name)] creates
    its order before it looks at the name: with a name that is empty or
    [None] it raises [ValueError("Missing name")], and a new empty order
    stays in [Order.orders], its number used up. *)
Theorem X27_customer_without_name (w : World) (day : string) (name : value) :
  truthy name = false ->
  CustomerCart.__init__ day name w
  = (Err (ValueError "Missing name"), with_new_order day w).
Proof.
  intros Hname. unfold CustomerCart.__init__.
  unfold mbind at 1, M_bind at 1, bind at 1. rewrite order_init_empty.
  unfold mbind, M_bind, bind, lift, CustomerCart.name_setter. by rewrite Hname.
Qed.

Lemma X27_customer_without_name_witness :
  CustomerCart.__init__ today (VStr "") cart_world
  = (Err (ValueError "Missing name"), with_new_order today cart_world).
Proof. apply X27_customer_without_name. reflexivity. Defined.

(** X28 (customer.py, [__init__], [name] setter): [Customer(name)] with
    an ASCII [str] that is not empty returns a customer with a new empty,
    open order, listed last in [Order.orders], and the name in title case;
    the name is not stripped, so a name of blanks is accepted. *)
Theorem X28_customer_with_name (w : World) (day : string) (name : string) :
  is_ascii name = true ->
  name <> "" ->
  CustomerCart.__init__ day (VStr name) w
  = (Ok (CustomerObj.mk (length (oheap w)) (title name)), with_new_order day w).
Proof.
  intros _ Hname. unfold CustomerCart.__init__.
  unfold mbind at 1, M_bind at 1, bind at 1. rewrite order_init_empty.
  unfold mbind, M_bind, bind, lift, CustomerCart.name_setter. simpl.
  destruct (String.eqb_spec name ""); [contradiction | reflexivity].
Qed.

Lemma X28_customer_with_name_witness :
  CustomerCart.__init__ today (VStr "  toby o'neil") cart_world
  = (Ok (CustomerObj.mk 1%nat "  Toby O'Neil"), with_new_order today cart_world).
Proof.
  apply (X28_customer_with_name cart_world today "  toby o'neil");
    [reflexivity | discriminate].
Defined.

(** ** Assigning an attribute its own value *)

Lemma update_product_same (w : World) (r : ref) (p : ProductObj)
    (f : ProductObj -> ProductObj) :
  heap w !! r = Some p -> f p = p -> update_product r f w = (Ok tt, w).
Proof.
  intros Hp Hf. unfold update_product. rewrite Hp, Hf.
  f_equal. transitivity (with_heap (heap w) w); [ | by destruct w].
  f_equal. exact (list_insert_id (heap w) r p Hp).
Qed.

(** X29 (products.py, [name] and [category] setters): in a state reached
    with ASCII names and categories the stored name and category are what
    the setters make of them: assigning a product its own name
    ([p.name = p.name]) or its own category changes nothing, as long as the
    stored string is not empty (an empty one is refused as missing). *)
Theorem X29_name_and_category_reassigned (w : World) (r : ref) (p : ProductObj) :
  reachable ascii_call w ->
  heap w !! r = Some p ->
  (_name p <> "" -> Product.set_name_checked r (VStr (_name p)) w = (Ok tt, w))
  /\ (_category p <> "" ->
      Product.set_category_checked r (VStr (_category p)) w = (Ok tt, w)).
Proof.
  intros Hw Hp.
  destruct (attributes_set w (reachable_consistent _ _ Hw) r p Hp) as (Hn & Hc & _).
  split; intros Hne.
  - unfold Product.set_name_checked, mbind, M_bind, bind, lift.
    rewrite name_setter_str. destruct (String.eqb_spec (_name p) ""); [contradiction | ].
    apply (update_product_same w r p); [exact Hp | ].
    unfold normal in Hn. rewrite Hn. by destruct p.
  - unfold Product.set_category_checked, mbind, M_bind, bind, lift.
    rewrite category_setter_str.
    destruct (String.eqb_spec (_category p) ""); [contradiction | ].
    apply (update_product_same w r p); [exact Hp | ].
    unfold normal in Hc. rewrite Hc. by destruct p.
Qed.

Lemma X29_name_and_category_reassigned_witness :
  Product.set_name_checked 1%nat (VStr "Mouse") cart_world = (Ok tt, cart_world).
Proof.
  refine (proj1 (X29_name_and_category_reassigned cart_world 1%nat
    (mkProduct "Mouse" (PInt 5) (NFloat (FFin 30)) "100001" "100000"
       "Electronics" true None) _ eq_refl) _).
  - apply reachable_cart_world; [exact mouse_call_ascii | exact Logic.I | exact Logic.I].
  - discriminate.
Defined.
